(** * generate_homepage_from_content.py: a shallow embedding and its properties

    The program reads a csv of content rows, builds one HTML fragment per row
    (calling the Twitter or Instagram oEmbed endpoint for embedded content),
    and substitutes the fragments into a page template.

    Conventions of the embedding:
    - a Python 2 byte string ([str]) is [string], unicode text is [ustring]
      (its code points), and a value that may be either is a [basestring];
      where the two meet, byte strings are decoded as ASCII, as Python 2 does;
    - [None]-or-byte-string values are [option string]; what [json.loads]
      returns is a [decoded] value, its strings unicode;
    - effects (standard output, HTTP requests, the file system) are threaded
      through a [world]; an uncaught Python exception is [Raise];
    - the libraries the script calls (requests, json, csv, the [str] of
      compound objects) are fields of a [platform] record. *)

From Stdlib Require Import ZArith String Ascii List Bool Lia.
From stdpp Require Import base option list gmap strings pretty.

Local Open Scope Z_scope.
Set Warnings "-register-all".

(** ** Python values and exceptions *)

Inductive value : Type :=
| VNone
| VBool (b : bool)
| VInt (n : Z)
| VFloat (bits : Z)                       (* an IEEE double, by its bit pattern *)
| VStr (s : string)
| VList (xs : list value)
| VDict (items : list (string * value)).

Inductive exn : Type :=
| SystemExit (code : Z)
| IOError (path : string)
| UnboundLocalError (name : string)
| AttributeError                          (* 'NoneType' object has no attribute *)
| KeyError (key : string)
| TypeError
| ValueError (msg : string)               (* raised by the script or by [%] *)
| RequestException                        (* raised inside requests.get *)
| JSONDecodeError                         (* the ValueError raised inside json.loads *)
| UnicodeDecodeError                      (* a byte string with a byte over 127 met unicode *)
| UnicodeEncodeError                      (* unicode with a code point over 127 written out *)
| CsvError                                (* raised inside csv.DictReader *)
| FormatDirectiveNotModelled.             (* a [%] directive with flags, width, precision,
                                             or a conversion other than s and d: not an
                                             exception of Python, the model stops there *)

Inductive result (A : Type) : Type :=
| Ok (a : A)
| Raise (e : exn).
Arguments Ok {A} a.
Arguments Raise {A} e.

Definition result_map {A B} (f : A -> B) (r : result A) : result B :=
  match r with Ok a => Ok (f a) | Raise e => Raise e end.

(** ** Text helpers *)

Definition dquote : string := String (ascii_of_nat 34) EmptyString.
Definition newline : string := String (ascii_of_nat 10) EmptyString.
Definition tab : string := String (ascii_of_nat 9) EmptyString.
Definition percent : ascii := ascii_of_nat 37.

(** [s.replace('%', '%%')] *)
Fixpoint escape_percent (s : string) : string :=
  match s with
  | EmptyString => EmptyString
  | String c rest =>
      if Ascii.eqb c percent
      then String percent (String percent (escape_percent rest))
      else String c (escape_percent rest)
  end.

(** [sep.join(parts)] *)
Definition join (sep : string) (parts : list string) : string :=
  String.concat sep parts.

(** ['-' * n] *)
Fixpoint repeat_char (c : ascii) (n : nat) : string :=
  match n with O => EmptyString | S k => String c (repeat_char c k) end.

(** [x in s], for a character *)
Fixpoint occurs (c : ascii) (s : string) : bool :=
  match s with
  | EmptyString => false
  | String d rest => Ascii.eqb c d || occurs c rest
  end.

(** [sub in s], as a proposition *)
Definition contains (s sub : string) : Prop :=
  exists before after, s = before +:+ sub +:+ after.

(** Truthiness of a [None]-or-text value: [if x:]. *)
Definition truthy (x : option string) : bool :=
  match x with
  | Some (String _ _) => true
  | _ => false
  end.

Definition of_text (x : option string) : value :=
  match x with Some s => VStr s | None => VNone end.

(** ** Byte strings and unicode text *)

(** Unicode text, as its code points. *)
Definition ustring : Type := list N.

(** A [str] or a [unicode]. *)
Inductive basestring : Type :=
| Bytes (s : string)
| Unicode (u : ustring).

Definition is_bytes (t : basestring) : bool :=
  match t with Bytes _ => true | Unicode _ => false end.

(** The code points of a byte string that holds ASCII only. *)
Fixpoint to_unicode (s : string) : ustring :=
  match s with
  | EmptyString => []
  | String c rest => N_of_ascii c :: to_unicode rest
  end.

Fixpoint is_ascii (s : string) : bool :=
  match s with
  | EmptyString => true
  | String c rest => (N_of_ascii c <? 128)%N && is_ascii rest
  end.

(** The implicit [s.decode('ascii')] where a byte string meets unicode. *)
Definition decode (s : string) : result ustring :=
  if is_ascii s then Ok (to_unicode s) else Raise UnicodeDecodeError.

(** The implicit [u.encode('ascii')] where unicode is written to a file. *)
Fixpoint encode (u : ustring) : result string :=
  match u with
  | [] => Ok EmptyString
  | n :: rest =>
      if (n <? 128)%N
      then result_map (String (ascii_of_N n)) (encode rest)
      else Raise UnicodeEncodeError
  end.

(** [u.replace('%', '%%')] on unicode text *)
Fixpoint uescape_percent (u : ustring) : ustring :=
  match u with
  | [] => []
  | n :: rest =>
      if (n =? 37)%N
      then 37%N :: 37%N :: uescape_percent rest
      else n :: uescape_percent rest
  end.

(** [elem.replace('%', '%%')], whichever kind of text [elem] is *)
Definition replace_percent (elem : basestring) : basestring :=
  match elem with
  | Bytes s => Bytes (escape_percent s)
  | Unicode u => Unicode (uescape_percent u)
  end.

(** [sep.join(parts)] on unicode text *)
Fixpoint ujoin (sep : ustring) (parts : list ustring) : ustring :=
  match parts with
  | [] => []
  | [x] => x
  | x :: rest => x ++ sep ++ ujoin sep rest
  end.

(** The items as byte strings, when none of them is unicode. *)
Fixpoint all_bytes (items : list basestring) : option (list string) :=
  match items with
  | [] => Some []
  | Bytes s :: rest => option_map (cons s) (all_bytes rest)
  | Unicode _ :: _ => None
  end.

Definition as_unicode (t : basestring) : result ustring :=
  match t with
  | Bytes s => decode s
  | Unicode u => Ok u
  end.

(** The items as unicode text, the byte strings among them decoded. *)
Fixpoint all_unicode (items : list basestring) : result (list ustring) :=
  match items with
  | [] => Ok []
  | item :: rest =>
      match as_unicode item, all_unicode rest with
      | Ok u, Ok us => Ok (u :: us)
      | Raise e, _ => Raise e
      | _, Raise e => Raise e
      end
  end.

(** [sep.join(items)] of Python 2: a single item is returned as it is; byte
    strings give a byte string; as soon as one item is unicode the separator
    and the byte strings are decoded and the result is unicode. *)
Definition join_text (sep : string) (items : list basestring) : result basestring :=
  match items with
  | [item] => Ok item
  | _ =>
      match all_bytes items with
      | Some parts => Ok (Bytes (join sep parts))
      | None =>
          match decode sep, all_unicode items with
          | Ok usep, Ok parts => Ok (Unicode (ujoin usep parts))
          | Raise e, _ => Raise e
          | _, Raise e => Raise e
          end
      end
  end.

(** ** urllib.quote, with its default safe set *)

Definition always_safe : string :=
  "ABCDEFGHIJKLMNOPQRSTUVWXYZabcdefghijklmnopqrstuvwxyz0123456789_.-".

Definition hex_digit (n : N) : ascii :=
  match String.get (N.to_nat n) "0123456789ABCDEF" with
  | Some c => c
  | None => "0"%char
  end.

Definition quote_char (c : ascii) : string :=
  if occurs c always_safe || Ascii.eqb c "/"%char
  then String c EmptyString
  else String percent
         (String (hex_digit (N.div (N_of_ascii c) 16))
            (String (hex_digit (N.modulo (N_of_ascii c) 16)) EmptyString)).

Fixpoint urllib_quote (s : string) : string :=
  match s with
  | EmptyString => EmptyString
  | String c rest => quote_char c +:+ urllib_quote rest
  end.

(** ** The string formatting operator [fmt % args]

    The directives the script and its templates use are modelled: [%s], [%d]
    and [%%], without flags, width or precision.  A character that cannot
    begin a directive raises ValueError as in Python; a directive with flags,
    width, precision, a length modifier or another conversion is outside the
    model, which stops with [FormatDirectiveNotModelled].

    [py_format] is the operator where the format is a byte string and no
    argument is unicode, so that the result is a byte string: a [value] holds
    no unicode.  [py_format_text] is the operator in general: its arguments
    are [object]s, and at the first [%s] that meets unicode the formatting
    starts over in unicode from that directive on, the format and the byte
    strings decoded as ASCII. *)

(** [%x] of the code of a character *)
Definition hex_lower_digit (n : N) : ascii :=
  match String.get (N.to_nat n) "0123456789abcdef" with
  | Some c => c
  | None => "0"%char
  end.

Definition hex_lower (n : N) : string :=
  if (n <? 16)%N
  then String (hex_lower_digit n) EmptyString
  else String (hex_lower_digit (N.div n 16))
         (String (hex_lower_digit (N.modulo n 16)) EmptyString).

(** The message of the ValueError for a character that begins no directive;
    [index] is the place of the character in the format. *)
Definition unsupported_format_character (shown : ascii) (code : N) (index : nat)
    : string :=
  "unsupported format character '" +:+ String shown EmptyString +:+ "' (0x"
  +:+ hex_lower code +:+ ") at index " +:+ pretty index.

(** After [%], the characters of the directives outside the model: flags,
    width, precision, length modifiers, and the conversions other than s
    and d. *)
Definition unmodelled_directive_chars : string :=
  "-+ #0123456789*.hlLriuoxXeEfFgGc".

(** What a directive other than [%%], [%s], [%d] ends in: a mapping key needs
    a dict; an argument is taken before the conversion is looked at. *)
Definition other_directive {A} (d shown : ascii) (index : nat) (args : list A)
    : exn :=
  if Ascii.eqb d "("%char
  then TypeError                         (* format requires a mapping *)
  else if occurs d unmodelled_directive_chars
  then FormatDirectiveNotModelled
  else match args with
       | [] => TypeError                 (* not enough arguments *)
       | _ :: _ =>
           ValueError (unsupported_format_character shown (N_of_ascii d) index)
       end.

(** A [str], or a [unicode] object, as an argument of [%]. *)
Inductive object : Type :=
| OValue (v : value)
| OUnicode (u : ustring).

Section Format.
(** [str(v)] of a float, list or dict *)
Variable str_compound : value -> string.

Definition py_str (v : value) : string :=
  match v with
  | VNone => "None"
  | VBool true => "True"
  | VBool false => "False"
  | VInt n => pretty n
  | VStr s => s
  | _ => str_compound v
  end.

Definition prepend (s : string) (r : result string) : result string :=
  result_map (String.append s) r.

(** The end of the format: every argument must have been used. *)
Definition format_end (args : list value) : result string :=
  match args with
  | [] => Ok EmptyString
  | _ :: _ => Raise TypeError          (* not all arguments converted *)
  end.

(** One directive, [%] followed by [d] at place [index]; [continue] formats
    what follows it. *)
Definition directive (d : ascii) (index : nat) (args : list value)
    (continue : list value -> result string) : result string :=
  if Ascii.eqb d percent
  then prepend (String percent EmptyString) (continue args)
  else if Ascii.eqb d "s"%char
  then match args with
       | [] => Raise TypeError         (* not enough arguments *)
       | v :: args' => prepend (py_str v) (continue args')
       end
  else if Ascii.eqb d "d"%char
  then match args with
       | [] => Raise TypeError
       | VInt n :: args' => prepend (pretty n) (continue args')
       | VBool b :: args' => prepend (if b then "1" else "0") (continue args')
       | VFloat _ :: _ => Raise FormatDirectiveNotModelled
       | _ :: _ => Raise TypeError     (* a number is required *)
       end
  else Raise (other_directive d d index args).

(** The format from place [index] on. *)
Fixpoint py_format_from (index : nat) (fmt : string) (args : list value)
    : result string :=
  match fmt with
  | EmptyString => format_end args
  | String c tail =>
      if Ascii.eqb c percent
      then match tail with
           | EmptyString => Raise (ValueError "incomplete format")
           | String d rest =>
               directive d (S index) args (py_format_from (S (S index)) rest)
           end
      else prepend (String c EmptyString) (py_format_from (S index) tail args)
  end.

Definition py_format (fmt : string) (args : list value) : result string :=
  py_format_from 0 fmt args.

(** *** Formatting in unicode *)

Definition uprepend (u : ustring) (r : result ustring) : result ustring :=
  result_map (app u) r.

(** The unicode formatter shows a character in its message only when it is
    printable. *)
Definition shown_in_unicode (d : ascii) : ascii :=
  if (31 <=? N_of_ascii d)%N && (N_of_ascii d <=? 126)%N then d else "?"%char.

Definition unicode_directive (d : ascii) (index : nat) (args : list object)
    (continue : list object -> result ustring) : result ustring :=
  if Ascii.eqb d percent
  then uprepend [37%N] (continue args)
  else if Ascii.eqb d "s"%char
  then match args with
       | [] => Raise TypeError
       | OUnicode u :: args' => uprepend u (continue args')
       | OValue v :: args' =>
           match decode (py_str v) with
           | Ok u => uprepend u (continue args')
           | Raise e => Raise e
           end
       end
  else if Ascii.eqb d "d"%char
  then match args with
       | [] => Raise TypeError
       | OValue (VInt n) :: args' =>
           uprepend (to_unicode (pretty n)) (continue args')
       | OValue (VBool b) :: args' =>
           uprepend (to_unicode (if b then "1" else "0")) (continue args')
       | OValue (VFloat _) :: _ => Raise FormatDirectiveNotModelled
       | _ :: _ => Raise TypeError
       end
  else Raise (other_directive d (shown_in_unicode d) index args).

(** The format, a byte string that holds ASCII only, formatted as unicode
    from place [index] on. *)
Fixpoint unicode_format_from (index : nat) (fmt : string) (args : list object)
    : result ustring :=
  match fmt with
  | EmptyString =>
      match args with
      | [] => Ok []
      | _ :: _ => Raise TypeError
      end
  | String c tail =>
      if Ascii.eqb c percent
      then match tail with
           | EmptyString => Raise (ValueError "incomplete format")
           | String d rest =>
               unicode_directive d (S index) args
                 (unicode_format_from (S (S index)) rest)
           end
      else uprepend [N_of_ascii c] (unicode_format_from (S index) tail args)
  end.

(** *** Formatting in general *)

(** What was formatted as bytes is put before the rest; when the rest came
    out as unicode, the bytes are decoded. *)
Definition tprepend (s : string) (r : result basestring) : result basestring :=
  match r with
  | Ok (Bytes t) => Ok (Bytes (s +:+ t))
  | Ok (Unicode u) =>
      match decode s with
      | Ok us => Ok (Unicode (us ++ u))
      | Raise e => Raise e
      end
  | Raise e => Raise e
  end.

(** One directive of a byte format; [in_unicode] is the formatting of the
    format from this directive on, in unicode, which [%s] turns to when its
    argument is unicode. *)
Definition text_directive (d : ascii) (index : nat) (args : list object)
    (continue : list object -> result basestring)
    (in_unicode : result basestring) : result basestring :=
  if Ascii.eqb d percent
  then tprepend (String percent EmptyString) (continue args)
  else if Ascii.eqb d "s"%char
  then match args with
       | [] => Raise TypeError
       | OUnicode _ :: _ => in_unicode
       | OValue v :: args' => tprepend (py_str v) (continue args')
       end
  else if Ascii.eqb d "d"%char
  then match args with
       | [] => Raise TypeError
       | OValue (VInt n) :: args' => tprepend (pretty n) (continue args')
       | OValue (VBool b) :: args' =>
           tprepend (if b then "1" else "0") (continue args')
       | OValue (VFloat _) :: _ => Raise FormatDirectiveNotModelled
       | _ :: _ => Raise TypeError
       end
  else Raise (other_directive d d index args).

Fixpoint py_format_text_from (index : nat) (fmt : string) (args : list object)
    : result basestring :=
  match fmt with
  | EmptyString =>
      match args with
      | [] => Ok (Bytes EmptyString)
      | _ :: _ => Raise TypeError
      end
  | String c tail =>
      if Ascii.eqb c percent
      then match tail with
           | EmptyString => Raise (ValueError "incomplete format")
           | String d rest =>
               text_directive d (S index) args
                 (py_format_text_from (S (S index)) rest)
                 (match decode fmt with
                  | Ok _ => result_map Unicode (unicode_format_from 0 fmt args)
                  | Raise e => Raise e
                  end)
           end
      else tprepend (String c EmptyString)
             (py_format_text_from (S index) tail args)
  end.

Definition py_format_text (fmt : string) (args : list object)
    : result basestring :=
  py_format_text_from 0 fmt args.
End Format.

Definition object_of_text (t : basestring) : object :=
  match t with
  | Bytes s => OValue (VStr s)
  | Unicode u => OUnicode u
  end.

(** ** The world the script runs in *)

Record response : Type := {
  status_code : Z;
  content : string
}.

(** A row of [csv.DictReader]: column name to text, or to [None] where the
    line was shorter than the header. *)
Abbreviation row := (gmap string (option string)).

(** [content_dict.get(key)] *)
Definition dict_get (content_dict : row) (key : string) : option string :=
  match content_dict !! key with
  | Some v => v
  | None => None
  end.

(** What [json.loads] returns: the strings of a decoded document are
    unicode, and so are the keys of its objects. *)
Inductive decoded : Type :=
| DNone
| DBool (b : bool)
| DInt (n : Z)
| DFloat (bits : Z)                       (* an IEEE double, by its bit pattern *)
| DUnicode (u : ustring)
| DList (xs : list decoded)
| DDict (items : list (ustring * decoded)).

Record platform : Type := {
  (** [requests.get(url)], given how many requests were issued before it;
      [None] when the library raises instead of returning a response *)
  requests_get : nat -> string -> option response;
  (** [json.loads(text)]; [None] when the text is not a JSON document *)
  json_loads : string -> option decoded;
  (** [list(csv.DictReader(f))] on the text of the file *)
  csv_DictReader : string -> option (list row);
  (** [str(content_dict)] *)
  str_row : row -> string;
  (** [str(v)] of a float, list or dict *)
  str_compound : value -> string;
  (** [str(v)] of a decoded list or dict *)
  str_decoded : decoded -> string
}.

Record world : Type := {
  stdout : list string;                   (* the lines printed so far *)
  requests_log : list string;             (* the URLs fetched so far *)
  files : gmap string string              (* the regular files, by path *)
}.

Definition M (A : Type) : Type := world -> result A * world.

Definition ret {A} (a : A) : M A := fun w => (Ok a, w).
Definition raise {A} (e : exn) : M A := fun w => (Raise e, w).
Definition bind {A B} (c : M A) (k : A -> M B) : M B :=
  fun w =>
    match c w with
    | (Ok a, w') => k a w'
    | (Raise e, w') => (Raise e, w')
    end.
Definition lift {A} (r : result A) : M A := fun w => (r, w).

Notation "x <- c ;; k" := (bind c (fun x => k))
  (at level 100, c at next level, right associativity).
Notation "c ;; k" := (bind c (fun _ => k))
  (at level 100, right associativity).

(** The three ways the script changes the world. *)
Definition printed (line : string) (w : world) : world :=
  {| stdout := stdout w ++ [line];
     requests_log := requests_log w;
     files := files w |}.
Definition requested (url : string) (w : world) : world :=
  {| stdout := stdout w;
     requests_log := requests_log w ++ [url];
     files := files w |}.
Definition written (path text : string) (w : world) : world :=
  {| stdout := stdout w;
     requests_log := requests_log w;
     files := <[path := text]> (files w) |}.

Definition print (line : string) : M unit :=
  fun w => (Ok tt, printed line w).

(** [open(path).read()] *)
Definition read_file (path : string) : M string :=
  fun w =>
    match files w !! path with
    | Some text => (Ok text, w)
    | None => (Raise (IOError path), w)
    end.

(** [open(path, 'w')]: the file is created, or emptied if it is there. *)
Definition open_for_writing (path : string) : M unit :=
  fun w => (Ok tt, written path EmptyString w).

(** [outfile.write(page)]: a byte string is written as it is, unicode text
    is encoded as ASCII first. *)
Definition file_write (path : string) (page : basestring) : M unit :=
  match page with
  | Bytes s => fun w => (Ok tt, written path s w)
  | Unicode u =>
      match encode u with
      | Ok s => fun w => (Ok tt, written path s w)
      | Raise e => raise e
      end
  end.

(** [with open(path, 'w') as outfile: outfile.write(page)] *)
Definition write_file (path : string) (page : basestring) : M unit :=
  open_for_writing path ;;
  file_write path page.

(** [os.path.isfile(path)] *)
Definition isfile (path : string) : M bool :=
  fun w => (Ok (bool_decide (is_Some (files w !! path))), w).

(** ** Constants of the script *)

Definition DEFAULT_CONTENT_CSV_PATH : string := "./content.csv".
Definition DEFAULT_PAGE_TEMPLATE_PATH : string := "./index_template.html".
Definition DEFAULT_OUTFILE_PATH : string := "index.html".

Definition CSV_KEY_TYPE : string := "type".
Definition CSV_KEY_URL : string := "url".
Definition CSV_KEY_QUOTE : string := "quote".
Definition CONTENT_TYPE_TWITTER : string := "twitter".
Definition CONTENT_TYPE_INSTAGRAM : string := "instagram".
Definition CONTENT_TYPE_WEBSITE : string := "website".
Definition CONTENT_TYPES : list string :=
  [CONTENT_TYPE_TWITTER; CONTENT_TYPE_INSTAGRAM; CONTENT_TYPE_WEBSITE].
Definition EMBEDDED_CONTENT_TYPES : list string :=
  [CONTENT_TYPE_TWITTER; CONTENT_TYPE_INSTAGRAM].

Definition CONTENT_CONTAINER : string :=
  Eval cbv in "<div class=" +:+ dquote +:+ "content %s" +:+ dquote +:+ ">%s</div>".
Definition WEBSITE_CONTENT_TEMPLATE : string :=
  Eval cbv in
    "<span class=" +:+ dquote +:+ "website-content" +:+ dquote +:+ ">%s</span>"
    +:+ newline
    +:+ "<span class=" +:+ dquote +:+ "website-url" +:+ dquote +:+ ">%s</span>".

Definition TWITTER_OEMBED_ENDPOINT : string := "https://publish.twitter.com/oembed?url=%s".
Definition TWITTER_HTML_KEY : string := "html".
Definition INSTAGRAM_OEMBED_ENDPOINT : string := "https://api.instagram.com/oembed/?url=%s".
Definition INSTAGRAM_HTML_KEY : string := "html".

(** The messages the script prints or raises, as format strings. *)
Definition TWITTER_FAILURE_MESSAGE : string :=
  Eval cbv in
    "Request to Twitter oEmbed endpoint for content " +:+ dquote +:+ "%s" +:+ dquote
    +:+ " failed with status code %d, message %s".
Definition INSTAGRAM_FAILURE_MESSAGE : string :=
  Eval cbv in
    "Request to Instagram oEmbed endpoint for content " +:+ dquote +:+ "%s" +:+ dquote
    +:+ " failed with status code %d, message %s.".
Definition UNEXPECTED_TYPE_MESSAGE : string :=
  "Unexpected type %s (not an embedded content type). This should never happen in this func.)".
Definition NO_TYPE_MESSAGE : string :=
  Eval cbv in
    "No content type provided for entry: " +:+ dquote +:+ "%s" +:+ dquote +:+ ". Skipping.".
Definition UNRECOGNIZED_TYPE_MESSAGE : string :=
  Eval cbv in
    "Unrecognized content type (" +:+ dquote +:+ "%s" +:+ dquote +:+ ") in entry: "
    +:+ dquote +:+ "%s" +:+ dquote +:+ ". Skipping.".
Definition NO_URL_MESSAGE : string :=
  Eval cbv in
    "No url provided for entry: " +:+ dquote +:+ "%s" +:+ dquote +:+ ". Skipping.".
Definition NOT_A_FILE_MESSAGE : string :=
  Eval cbv in
    "ERROR: Filepath provided (" +:+ dquote +:+ "%s" +:+ dquote
    +:+ ") is not a file (may be a directory or an invalid path).".
Definition PROCESSING_MESSAGE : string :=
  Eval cbv in tab +:+ "Processing content row %d/%d...".

(** The parsed command line: each flag is [None] unless it was given. *)
Record arguments : Type := {
  content_csv : option string;
  page_template : option string;
  outfile : option string
}.

(** [d[key]] on a decoded JSON document, for a key that is a byte string:
    it finds the unicode key with the same characters. *)
Fixpoint assoc (key : ustring) (items : list (ustring * decoded))
    : option decoded :=
  match items with
  | [] => None
  | (k, v) :: rest => if bool_decide (k = key) then Some v else assoc key rest
  end.

Definition getitem (d : decoded) (key : string) : result decoded :=
  match d with
  | DDict items =>
      match assoc (to_unicode key) items with
      | Some v => Ok v
      | None => Raise (KeyError key)
      end
  | _ => Raise TypeError                  (* not subscriptable, or not by text *)
  end.

(** ** The script *)

Section Script.
Variable P : platform.

Definition format (fmt : string) (args : list value) : M string :=
  lift (py_format (str_compound P) fmt args).

(** [requests.get(url)]: the request is logged, then answered. *)
Definition http_get (url : string) : M response :=
  fun w =>
    match requests_get P (length (requests_log w)) url with
    | Some r => (Ok r, requested url w)
    | None => (Raise RequestException, requested url w)
    end.

(** [fmt % args] where an argument may be unicode *)
Definition format_text (fmt : string) (args : list object) : M basestring :=
  lift (py_format_text (str_compound P) fmt args).

Definition loads (text : string) : M decoded :=
  match json_loads P text with
  | Some v => ret v
  | None => raise JSONDecodeError
  end.

Definition get_twitter_embed_code (url : string) : M decoded :=
  let encoded_url := urllib_quote url in
  query_path <- format TWITTER_OEMBED_ENDPOINT [VStr encoded_url] ;;
  response <- http_get query_path ;;
  if negb (status_code response =? 200)
  then
    line <- format TWITTER_FAILURE_MESSAGE
              [VStr url; VInt (status_code response); VStr (content response)] ;;
    print line ;;
    ret DNone
  else
    result_json <- loads (content response) ;;
    lift (getitem result_json TWITTER_HTML_KEY).

Definition get_instagram_embed_code (url : string) : M decoded :=
  query_path <- format INSTAGRAM_OEMBED_ENDPOINT [VStr url] ;;
  response <- http_get query_path ;;
  if negb (status_code response =? 200)
  then
    line <- format INSTAGRAM_FAILURE_MESSAGE
              [VStr url; VInt (status_code response); VStr (content response)] ;;
    print line ;;
    ret DNone
  else
    result_json <- loads (content response) ;;
    lift (getitem result_json INSTAGRAM_HTML_KEY).

(** The embed code as an argument of [%]: a decoded string is unicode; a
    list or a dict stands as its [str()], which is all that the directives
    of the model can tell of it. *)
Definition object_of (embed_code : decoded) : object :=
  match embed_code with
  | DNone => OValue VNone
  | DBool b => OValue (VBool b)
  | DInt n => OValue (VInt n)
  | DFloat bits => OValue (VFloat bits)
  | DUnicode u => OUnicode u
  | DList _ | DDict _ => OValue (VStr (str_decoded P embed_code))
  end.

Definition html_element_from_embedded_content (url content_type : string)
    : M basestring :=
  embed_code <-
    (if String.eqb content_type CONTENT_TYPE_TWITTER
     then get_twitter_embed_code url
     else if String.eqb content_type CONTENT_TYPE_INSTAGRAM
     then get_instagram_embed_code url
     else
       errString <- format UNEXPECTED_TYPE_MESSAGE [VStr content_type] ;;
       raise (ValueError errString)) ;;
  format_text CONTENT_CONTAINER [OValue (VStr content_type); object_of embed_code].

Definition html_element_from_website_content (url quote : option string)
    : M string :=
  website_content <- format WEBSITE_CONTENT_TEMPLATE [of_text quote; of_text url] ;;
  format CONTENT_CONTAINER [VStr "website"; VStr website_content].

(** The fragment of one row: [Some] text, or [None] when the row is skipped.
    The fragment of a website row is a byte string. *)
Definition html_element_from_content (content_dict : row)
    : M (option basestring) :=
  match dict_get content_dict CSV_KEY_TYPE with
  | None | Some EmptyString =>
      line <- format NO_TYPE_MESSAGE [VStr (str_row P content_dict)] ;;
      print line ;;
      ret None
  | Some content_type =>
      if negb (bool_decide (content_type ∈ CONTENT_TYPES))
      then
        line <- format UNRECOGNIZED_TYPE_MESSAGE
                  [VStr content_type; VStr (str_row P content_dict)] ;;
        print line ;;
        ret None
      else if bool_decide (content_type ∈ EMBEDDED_CONTENT_TYPES)
      then
        match dict_get content_dict CSV_KEY_URL with
        | None | Some EmptyString =>
            line <- format NO_URL_MESSAGE [VStr (str_row P content_dict)] ;;
            print line ;;
            ret None
        | Some url =>
            elem <- html_element_from_embedded_content url content_type ;;
            ret (Some elem)
        end
      else if String.eqb content_type CONTENT_TYPE_WEBSITE
      then
        let url := dict_get content_dict CSV_KEY_URL in
        let quote := dict_get content_dict CSV_KEY_QUOTE in
        elem <- html_element_from_website_content url quote ;;
        ret (Some (Bytes elem))
      else raise (UnboundLocalError "elem")
  end.

Definition content_from_csv (filepath : string) : M (list row) :=
  text <- read_file filepath ;;
  match csv_DictReader P text with
  | Some rows => ret rows
  | None => raise CsvError
  end.

Definition validate_filepath (filepath : string) : M unit :=
  found <- isfile filepath ;;
  if negb found
  then
    line <- format NOT_A_FILE_MESSAGE [VStr filepath] ;;
    print line ;;
    raise (SystemExit 1)
  else ret tt.

(** The loop of [main] over the rows, from row [i] on (counted from 0). *)
Fixpoint process_rows (total : nat) (i : nat) (rows : list row)
    (html_elements_to_add : list (option basestring))
    : M (list (option basestring)) :=
  match rows with
  | [] => ret html_elements_to_add
  | content_dict :: rest =>
      line <- format PROCESSING_MESSAGE
                [VInt (Z.of_nat i + 1); VInt (Z.of_nat total)] ;;
      print line ;;
      elem <- html_element_from_content content_dict ;;
      process_rows total (S i) rest (html_elements_to_add ++ [elem])
  end.

(** [[elem.replace('%', '%%') for elem in html_elements_to_add]]: [None] has
    no [replace]. *)
Fixpoint escape_all (html_elements_to_add : list (option basestring))
    : result (list basestring) :=
  match html_elements_to_add with
  | [] => Ok []
  | None :: _ => Raise AttributeError
  | Some elem :: rest =>
      match escape_all rest with
      | Ok escaped => Ok (replace_percent elem :: escaped)
      | Raise e => Raise e
      end
  end.

(** The two assignments of [main] that build the page: the escaped fragments
    are joined, and the result is substituted into the template. *)
Definition generate_page (page_template : string)
    (html_elements_to_add : list (option basestring)) : M basestring :=
  escaped <- lift (escape_all html_elements_to_add) ;;
  html_to_insert <- lift (join_text (newline +:+ newline) escaped) ;;
  format_text page_template [object_of_text html_to_insert].

Definition main (args : arguments) : M unit :=
  content_csv_filepath <-
    match content_csv args with
    | Some (String _ _ as given) => ret given
    | _ =>
        line <- format "No content csv filepath provided, using default: %s"
                  [VStr DEFAULT_CONTENT_CSV_PATH] ;;
        print line ;;
        ret DEFAULT_CONTENT_CSV_PATH
    end ;;
  validate_filepath content_csv_filepath ;;
  page_template_filepath <-
    match page_template args with
    | Some (String _ _ as given) => ret given
    | _ =>
        line <- format "No page template filepath provided, using default: %s"
                  [VStr DEFAULT_PAGE_TEMPLATE_PATH] ;;
        print line ;;
        ret DEFAULT_PAGE_TEMPLATE_PATH
    end ;;
  validate_filepath page_template_filepath ;;
  (* the third branch assigns [page_template_filepath] when the flag is
     given, and leaves [outfile_filepath] unbound *)
  paths <-
    match outfile args with
    | Some (String _ _ as given) => ret (given, None)
    | _ =>
        line <- format "No outfile filepath provided, using default: %s"
                  [VStr DEFAULT_OUTFILE_PATH] ;;
        print line ;;
        ret (page_template_filepath, Some DEFAULT_OUTFILE_PATH)
    end ;;
  let page_template_filepath := fst paths in
  let outfile_filepath : option string := snd paths in
  print (repeat_char "-" 80) ;;
  content <- content_from_csv content_csv_filepath ;;
  line <- format "Loaded %d content rows from csv." [VInt (Z.of_nat (length content))] ;;
  print line ;;
  html_elements_to_add <- process_rows (length content) 0 content [] ;;
  page_template <- read_file page_template_filepath ;;
  generated_page <- generate_page page_template html_elements_to_add ;;
  match outfile_filepath with
  | None => raise (UnboundLocalError "outfile_filepath")
  | Some outfile_filepath =>
      write_file outfile_filepath generated_page ;;
      line <- format "Succesfully wrote generated page to %s" [VStr outfile_filepath] ;;
      print line
  end.
End Script.

(** ** What the fragments look like *)

(** [CONTENT_CONTAINER], filled in. *)
Definition container (class body : string) : string :=
  "<div class=" +:+ dquote +:+ "content " +:+ class +:+ dquote +:+ ">"
  +:+ body +:+ "</div>".

(** [CONTENT_CONTAINER], filled in with unicode text. *)
Definition ucontainer (class : string) (body : ustring) : ustring :=
  to_unicode ("<div class=" +:+ dquote +:+ "content " +:+ class +:+ dquote +:+ ">")
  ++ body ++ to_unicode "</div>".

(** [CONTENT_CONTAINER], filled in with a byte string or with unicode text. *)
Definition container_text (class : string) (body : basestring) : basestring :=
  match body with
  | Bytes s => Bytes (container class s)
  | Unicode u => Unicode (ucontainer class u)
  end.

(** How [%s] shows an embed code: a decoded string as the unicode text it
    is, anything else by its [str()]. *)
Definition shown_embed (P : platform) (embed_code : decoded) : basestring :=
  match object_of P embed_code with
  | OUnicode u => Unicode u
  | OValue v => Bytes (py_str (str_compound P) v)
  end.

(** [WEBSITE_CONTENT_TEMPLATE], filled in: the quote line, then the url line. *)
Definition website_block (quote url : string) : string :=
  "<span class=" +:+ dquote +:+ "website-content" +:+ dquote +:+ ">" +:+ quote
  +:+ "</span>" +:+ newline
  +:+ "<span class=" +:+ dquote +:+ "website-url" +:+ dquote +:+ ">" +:+ url
  +:+ "</span>".

(** How [%s] shows a [None]-or-text value. *)
Definition shown (x : option string) : string :=
  match x with Some s => s | None => "None" end.


(** The URLs the two fetchers request, and the lines they print on failure. *)
Definition twitter_query (url : string) : string :=
  "https://publish.twitter.com/oembed?url=" +:+ urllib_quote url.
Definition instagram_query (url : string) : string :=
  "https://api.instagram.com/oembed/?url=" +:+ url.
Definition twitter_failure (url : string) (r : response) : string :=
  "Request to Twitter oEmbed endpoint for content " +:+ dquote +:+ url +:+ dquote
  +:+ " failed with status code " +:+ pretty (status_code r)
  +:+ ", message " +:+ content r.
Definition instagram_failure (url : string) (r : response) : string :=
  "Request to Instagram oEmbed endpoint for content " +:+ dquote +:+ url +:+ dquote
  +:+ " failed with status code " +:+ pretty (status_code r)
  +:+ ", message " +:+ content r +:+ ".".

(** What [json.loads(text)[key]] gives. *)
Definition decoded_item (P : platform) (text key : string) : result decoded :=
  match json_loads P text with
  | Some d => getitem d key
  | None => Raise JSONDecodeError
  end.

(** The two services with embedded content, and what the script holds for
    each: its content type, its fetcher, the URL it requests and the line it
    prints when the request fails. *)
Inductive service : Type := Twitter | Instagram.

Definition content_type_of (s : service) : string :=
  match s with
  | Twitter => CONTENT_TYPE_TWITTER
  | Instagram => CONTENT_TYPE_INSTAGRAM
  end.

Definition fetcher (P : platform) (s : service) : string -> M decoded :=
  match s with
  | Twitter => get_twitter_embed_code P
  | Instagram => get_instagram_embed_code P
  end.

Definition query (s : service) (url : string) : string :=
  match s with
  | Twitter => twitter_query url
  | Instagram => instagram_query url
  end.

Definition failure (s : service) (url : string) (r : response) : string :=
  match s with
  | Twitter => twitter_failure url r
  | Instagram => instagram_failure url r
  end.

(** ** Sample platforms, worlds and rows *)

Definition empty_world : world :=
  {| stdout := []; requests_log := []; files := ∅ |}.

(** A platform whose endpoints answer every request with [r], whose JSON
    decoder gives [decoded], and whose csv reader gives [rows]. *)
Definition sample_platform (r : option response) (document : option decoded)
    (rows : list row) : platform :=
  {| requests_get := fun _ _ => r;
     json_loads := fun _ => document;
     csv_DictReader := fun _ => Some rows;
     str_row := fun _ => "{...}";
     str_compound := fun _ => "...";
     str_decoded := fun _ => "[...]" |}.

Definition ok_response : response :=
  {| status_code := 200; content := "(a JSON document)" |}.
Definition not_found_response : response :=
  {| status_code := 404; content := "Not Found" |}.
Definition embed_document : decoded :=
  DDict [(to_unicode "url", DUnicode (to_unicode "https://twitter.com/a/status/1"));
         (to_unicode "html", DUnicode (to_unicode "<blockquote>a tweet</blockquote>"))].

Definition answering_platform : platform :=
  sample_platform (Some ok_response) (Some embed_document) [].
Definition failing_platform : platform :=
  sample_platform (Some not_found_response) None [].

Definition tweet_row : row :=
  {[ "type" := Some "twitter"; "url" := Some "https://twitter.com/a/status/1" ]}.
Definition tweet_row_without_url : row :=
  {[ "type" := Some "twitter"; "url" := Some EmptyString ]}.
Definition website_row : row :=
  {[ "type" := Some "website"; "url" := Some "http://a.com";
     "quote" := Some "Great!" ]}.
Definition website_row_without_url : row :=
  {[ "type" := Some "website"; "quote" := Some "Great!" ]}.
Definition foo_row : row :=
  {[ "type" := Some "foo"; "url" := Some "x" ]}.

(** ** Properties of computations *)

(** A computation that writes no file. *)
Definition keeps_files {A} (c : M A) : Prop :=
  forall w, files (snd (c w)) = files w.

(** A computation that always ends in an exception. *)
Definition always_raises {A} (c : M A) : Prop :=
  forall w, exists e, fst (c w) = Raise e.

Definition no_arguments : arguments :=
  {| content_csv := None; page_template := None; outfile := None |}.
Definition outfile_argument : arguments :=
  {| content_csv := None; page_template := None; outfile := Some "out.html" |}.

(** A world with the two default input files in place. *)
Definition world_with_template (page_template : string) : world :=
  {| stdout := []; requests_log := [];
     files := {[ DEFAULT_CONTENT_CSV_PATH := "(the content table)";
                 DEFAULT_PAGE_TEMPLATE_PATH := page_template ]} |}.

(** The path [main] settles on for a flag: the flag's value when it is given
    and not empty, the default otherwise. *)
Definition resolved (flag : option string) (default : string) : string :=
  match flag with
  | Some (String _ _ as given) => given
  | _ => default
  end.

(** The rows the dispatch skips without calling a fetcher: no type, a type
    that is not recognized, or an embedded type with no url. *)
Definition skipped (content_dict : row) : bool :=
  match dict_get content_dict CSV_KEY_TYPE with
  | None | Some EmptyString => true
  | Some content_type =>
      negb (bool_decide (content_type ∈ CONTENT_TYPES))
      || (bool_decide (content_type ∈ EMBEDDED_CONTENT_TYPES)
          && negb (truthy (dict_get content_dict CSV_KEY_URL)))
  end.

(** A run from [w] that ends in an exception and leaves the files as [F]. *)
Definition aborts_leaving {A} (F : gmap string string) (c : M A) (w : world)
    : Prop :=
  (exists e, fst (c w) = Raise e) /\ files (snd (c w)) = F.

(** A platform whose csv reader gives [rows] and whose network is down. *)
Definition offline_platform (rows : list row) : platform :=
  sample_platform None None rows.

(** The page of the specification's example, as the specification gives it. *)
Definition example_page_claimed : string :=
  "<html>"
  +:+ container "website" (website_block "Great!" "http://a.com" +:+ "</span>")
  +:+ "</html>".

(** The page of the example, as the templates of the script give it. *)
Definition example_page : string :=
  "<html>" +:+ container "website" (website_block "Great!" "http://a.com")
  +:+ "</html>".

(** ** Two runs *)

(** The platform [P] with another network: the libraries are the same, the
    answers of the endpoints are those of [net]. *)
Definition with_network (P : platform)
    (net : nat -> string -> option response) : platform :=
  {| requests_get := net;
     json_loads := json_loads P;
     csv_DictReader := csv_DictReader P;
     str_row := str_row P;
     str_compound := str_compound P;
     str_decoded := str_decoded P |}.

(** [net] answers as [P] does each request of [log] from position [from] on. *)
Definition same_answers (P : platform) (net : nat -> string -> option response)
    (from : nat) (log : list string) : Prop :=
  forall (i : nat) (url : string),
    (from <= i)%nat -> log !! i = Some url -> requests_get P i url = net i url.

(** [c'] is [c] run against [net]: the log of [c] only grows, and where [net]
    answers the requests of [c] as [P] does, [c'] does what [c] does. *)
Definition replays (P : platform) (net : nat -> string -> option response)
    {A} (c c' : M A) : Prop :=
  forall w,
    (exists more, requests_log (snd (c w)) = requests_log w ++ more)
    /\ (same_answers P net (length (requests_log w)) (requests_log (snd (c w))) ->
        c' w = c w).

(** A table with a tweet and a website quote, on a platform that answers;
    and a network that answers the first request alike and fails afterwards. *)
Definition two_row_platform : platform :=
  sample_platform (Some ok_response) (Some embed_document) [tweet_row; website_row].
Definition flaky_network (i : nat) (url : string) : option response :=
  match i with
  | O => Some ok_response
  | S _ => None
  end.

(** ** The lines the dispatch prints when it skips a row *)

Definition no_type_line (P : platform) (content_dict : row) : string :=
  "No content type provided for entry: " +:+ dquote +:+ str_row P content_dict
  +:+ dquote +:+ ". Skipping.".
Definition unrecognized_type_line (P : platform) (content_type : string)
    (content_dict : row) : string :=
  "Unrecognized content type (" +:+ dquote +:+ content_type +:+ dquote
  +:+ ") in entry: " +:+ dquote +:+ str_row P content_dict +:+ dquote
  +:+ ". Skipping.".
Definition no_url_line (P : platform) (content_dict : row) : string :=
  "No url provided for entry: " +:+ dquote +:+ str_row P content_dict
  +:+ dquote +:+ ". Skipping.".

(** The line [validate_filepath] prints before it exits. *)
Definition not_a_file_line (filepath : string) : string :=
  "ERROR: Filepath provided (" +:+ dquote +:+ filepath +:+ dquote
  +:+ ") is not a file (may be a directory or an invalid path).".

(** The message of the ValueError of [html_element_from_embedded_content]. *)
Definition unexpected_type_message (content_type : string) : string :=
  "Unexpected type " +:+ content_type
  +:+ " (not an embedded content type). This should never happen in this func.)".

(** The characters [urllib.quote] leaves or produces. *)
Definition quoted_char (c : ascii) : bool :=
  occurs c always_safe || Ascii.eqb c "/"%char || Ascii.eqb c percent.

Fixpoint all_chars (p : ascii -> bool) (s : string) : bool :=
  match s with
  | EmptyString => true
  | String c rest => p c && all_chars p rest
  end.

(** The service that serves a content type, if any. *)
Definition service_of (content_type : string) : option service :=
  if String.eqb content_type CONTENT_TYPE_TWITTER then Some Twitter
  else if String.eqb content_type CONTENT_TYPE_INSTAGRAM then Some Instagram
  else None.

(** The request a row calls for: one for an embedded row with a url, none for
    any other row. *)
Definition request_of (content_dict : row) : list string :=
  match dict_get content_dict CSV_KEY_TYPE with
  | Some content_type =>
      match service_of content_type, dict_get content_dict CSV_KEY_URL with
      | Some s, Some (String c u) => [query s (String c u)]
      | _, _ => []
      end
  | None => []
  end.

(** Text that [urllib.quote] leaves as it is. *)
Definition safe_char (c : ascii) : bool :=
  occurs c always_safe || Ascii.eqb c "/"%char.

(** A JSON document that is not an object. *)
Definition is_object (d : decoded) : bool :=
  match d with
  | DDict _ => true
  | _ => false
  end.

(** Platforms for the failures of a fetch: no answer at all, an answer that
    is no JSON, a JSON object with no html, a JSON list. *)
Definition unreachable_platform : platform :=
  sample_platform None None [tweet_row].
Definition garbled_platform : platform :=
  sample_platform (Some ok_response) None [tweet_row].
Definition keyless_platform : platform :=
  sample_platform (Some ok_response)
    (Some (DDict [(to_unicode "url",
                   DUnicode (to_unicode "https://twitter.com/a/status/1"))]))
    [tweet_row].
Definition list_platform : platform :=
  sample_platform (Some ok_response) (Some (DList [])) [tweet_row].

(** ** The run, once the paths are settled *)

(** [main] from the line of dashes on, with the three paths it has settled
    on; [outfile_filepath] is [None] where the variable is unbound. *)
Definition main_from_paths (P : platform)
    (content_csv_filepath page_template_filepath : string)
    (outfile_filepath : option string) : M unit :=
  print (repeat_char "-" 80) ;;
  content <- content_from_csv P content_csv_filepath ;;
  line <- format P "Loaded %d content rows from csv."
            [VInt (Z.of_nat (length content))] ;;
  print line ;;
  html_elements_to_add <- process_rows P (length content) 0 content [] ;;
  page_template <- read_file page_template_filepath ;;
  generated_page <- generate_page P page_template html_elements_to_add ;;
  match outfile_filepath with
  | None => raise (UnboundLocalError "outfile_filepath")
  | Some outfile_filepath =>
      write_file outfile_filepath generated_page ;;
      line <- format P "Succesfully wrote generated page to %s"
                [VStr outfile_filepath] ;;
      print line
  end.

(** The paths [main] settles on: the template is read from the output flag
    when that flag is given, and the output path is bound only when it is
    not. *)
Definition template_path_used (args : arguments) : string :=
  match outfile args with
  | Some (String _ _ as given) => given
  | _ => resolved (page_template args) DEFAULT_PAGE_TEMPLATE_PATH
  end.
Definition outfile_path_used (args : arguments) : option string :=
  match outfile args with
  | Some (String _ _) => None
  | _ => Some DEFAULT_OUTFILE_PATH
  end.

(** Two worlds with the same files and the same request log. *)
Definition same_files_and_log (w w' : world) : Prop :=
  files w' = files w /\ requests_log w' = requests_log w.

(** What the run prints after reading the table. *)
Definition loaded_line (rows : list row) : string :=
  "Loaded " +:+ pretty (Z.of_nat (length rows)) +:+ " content rows from csv.".

(** The requests a table calls for, row by row. *)
Definition requests_of (rows : list row) : list string :=
  concat (map request_of rows).

(** What the loop prints before it handles row [i] (counted from 0). *)
Definition processing_line (i total : nat) : string :=
  tab +:+ "Processing content row " +:+ pretty (Z.of_nat i + 1) +:+ "/"
  +:+ pretty (Z.of_nat total) +:+ "...".

(** The fragment of a website row. *)
Definition website_fragment (content_dict : row) : string :=
  container "website"
    (website_block (shown (dict_get content_dict CSV_KEY_QUOTE))
                   (shown (dict_get content_dict CSV_KEY_URL))).

(** The fragment of a row that is not skipped, when its fetch, if it has one,
    ends on a status other than 200. *)
Definition fragment_without_embed (content_dict : row) : string :=
  match dict_get content_dict CSV_KEY_TYPE with
  | Some content_type =>
      if String.eqb content_type CONTENT_TYPE_WEBSITE
      then website_fragment content_dict
      else container content_type "None"
  | None => EmptyString
  end.

(** The page: the template around the fragments, escaped and joined. *)
Definition page_of (pre post : string) (fragments : list string) : string :=
  pre +:+ join (newline +:+ newline) (map escape_percent fragments) +:+ post.

Definition failing_network (P : platform) : Prop :=
  forall i url, exists r, requests_get P i url = Some r /\ status_code r <> 200.

Definition network_down (P : platform) : Prop :=
  forall i url, requests_get P i url = None.

(** The sample table on a platform whose endpoints answer 404, and on one
    whose network is down. *)
Definition failing_table_platform : platform :=
  sample_platform (Some not_found_response) None [tweet_row; website_row].
Definition down_table_platform : platform :=
  sample_platform None None [website_row; tweet_row; website_row].

(** ** Pages with unicode text *)

(** The text of a fragment as unicode, a byte string read as ASCII. *)
Definition to_utext (t : basestring) : ustring :=
  match t with
  | Bytes s => to_unicode s
  | Unicode u => u
  end.

(** Whether the byte strings among the fragments hold ASCII only. *)
Definition ascii_fragment (t : basestring) : bool :=
  match t with
  | Bytes s => is_ascii s
  | Unicode _ => true
  end.
Definition ascii_fragments (fragments : list basestring) : bool :=
  forallb ascii_fragment fragments.

(** The separator of the fragments: a blank line. *)
Definition blank_line : string := newline +:+ newline.

(** The unicode page: the template around the fragments, escaped and joined. *)
Definition upage_of (pre post : string) (fragments : list basestring) : ustring :=
  to_unicode pre
  ++ ujoin (to_unicode blank_line) (map uescape_percent (map to_utext fragments))
  ++ to_unicode post.

Definition accented_embed : ustring :=
  to_unicode "<blockquote>caf" ++ [233%N] ++ to_unicode "</blockquote>".
Definition accented_document : decoded :=
  DDict [(to_unicode "html", DUnicode accented_embed)].
Definition accented_platform : platform :=
  sample_platform (Some ok_response) (Some accented_document) [tweet_row].

(** A platform whose endpoints answer every request with status 200 and a
    JSON object that holds the text [html] under the key html. *)
Definition embeds_answered (P : platform) (html : ustring) : Prop :=
  forall i url, exists r items,
    requests_get P i url = Some r
    /\ status_code r = 200
    /\ json_loads P (content r) = Some (DDict items)
    /\ assoc (to_unicode "html") items = Some (DUnicode html).

(** The fragment of a row that is not skipped, when its fetch, if it has one,
    gives the text [html]. *)
Definition fragment_with_embed (html : ustring) (content_dict : row) : basestring :=
  match dict_get content_dict CSV_KEY_TYPE with
  | Some content_type =>
      if String.eqb content_type CONTENT_TYPE_WEBSITE
      then Bytes (website_fragment content_dict)
      else Unicode (ucontainer content_type html)
  | None => Bytes EmptyString
  end.

(** Whether a row is one of embedded content. *)
Definition embedded (content_dict : row) : bool :=
  match dict_get content_dict CSV_KEY_TYPE with
  | Some content_type => bool_decide (content_type ∈ EMBEDDED_CONTENT_TYPES)
  | None => false
  end.

(** Unicode text that holds ASCII only. *)
Definition uascii (u : ustring) : bool := forallb (fun n => (n <? 128)%N) u.

(** A website row with a quote that holds a byte over 127, and its table. *)
Definition accented_row : row :=
  {[ "type" := Some "website";
     "quote" := Some ("caf" +:+ String (ascii_of_nat 195)
                                  (String (ascii_of_nat 169) EmptyString)) ]}.
Definition accented_quote_platform : platform :=
  sample_platform (Some ok_response) (Some embed_document) [accented_row; tweet_row].

(** * Properties *)

(** ** Formatting with the constant templates *)

Lemma py_str_of_text sc (x : option string) : py_str sc (of_text x) = shown x.
Proof. destruct x; reflexivity. Qed.

Lemma format_container sc (class : string) (body : value) :
  py_format sc CONTENT_CONTAINER [VStr class; body]
  = Ok (container class (py_str sc body)).
Proof. reflexivity. Qed.

Lemma format_website_block sc (quote url : option string) :
  py_format sc WEBSITE_CONTENT_TEMPLATE [of_text quote; of_text url]
  = Ok (website_block (shown quote) (shown url)).
Proof. rewrite <- !(py_str_of_text sc). reflexivity. Qed.

(** ** The fragment builder *)

Lemma website_row_run (P : platform) (content_dict : row) (w : world) :
  dict_get content_dict CSV_KEY_TYPE = Some CONTENT_TYPE_WEBSITE ->
  html_element_from_content P content_dict w
  = (Ok (Some (Bytes (container "website"
                        (website_block (shown (dict_get content_dict CSV_KEY_QUOTE))
                                       (shown (dict_get content_dict CSV_KEY_URL)))))),
     w).
Proof.
  intros Htype. unfold html_element_from_content. rewrite Htype.
  unfold html_element_from_website_content, format, bind, lift, ret.
  rewrite format_website_block. reflexivity.
Qed.

(** C5: a row of type website always gets its fragment, a byte string: the
    quote line, then the url line, inside a container of class website.
    Nothing is validated: an absent url or quote is shown as the text None.
    The row is neither skipped nor logged, and no request is issued. *)
Theorem website_row_fragment (P : platform) (content_dict : row) (w : world) :
  dict_get content_dict CSV_KEY_TYPE = Some CONTENT_TYPE_WEBSITE ->
  fst (html_element_from_content P content_dict w)
  = Ok (Some (Bytes (container "website"
                       (website_block (shown (dict_get content_dict CSV_KEY_QUOTE))
                                      (shown (dict_get content_dict CSV_KEY_URL))))))
  /\ snd (html_element_from_content P content_dict w) = w.
Proof.
  intros Htype. rewrite (website_row_run P content_dict w Htype).
  repeat split.
Qed.

Lemma website_row_fragment_witness :
  fst (html_element_from_content failing_platform website_row_without_url
         empty_world)
  = Ok (Some (Bytes (container "website" (website_block "Great!" "None")))).
Proof.
  apply (website_row_fragment failing_platform website_row_without_url empty_world).
  reflexivity.
Defined.

Lemma append_empty (s : string) : s +:+ EmptyString = s.
Proof.
  induction s as [|c s IH]; [reflexivity|].
  change (String c (s +:+ EmptyString) = String c s). now rewrite IH.
Qed.

Lemma append_assoc (a b c : string) : (a +:+ b) +:+ c = a +:+ (b +:+ c).
Proof.
  induction a as [|x a IH]; [reflexivity|].
  change (String x ((a +:+ b) +:+ c) = String x (a +:+ (b +:+ c))). now rewrite IH.
Qed.

(** ** The embed fetchers, run *)

Lemma get_twitter_embed_code_run (P : platform) (url : string) (w : world) :
  get_twitter_embed_code P url w
  = match requests_get P (length (requests_log w)) (twitter_query url) with
    | None => (Raise RequestException, requested (twitter_query url) w)
    | Some r =>
        if status_code r =? 200
        then (decoded_item P (content r) TWITTER_HTML_KEY,
              requested (twitter_query url) w)
        else (Ok DNone,
              printed (twitter_failure url r) (requested (twitter_query url) w))
    end.
Proof.
  unfold get_twitter_embed_code, format, bind, lift.
  change (py_format (str_compound P) TWITTER_OEMBED_ENDPOINT [VStr (urllib_quote url)])
    with (Ok (A:=string) ("https://publish.twitter.com/oembed?url=" +:+ (urllib_quote url +:+ EmptyString))).
  rewrite append_empty. fold (twitter_query url).
  unfold http_get.
  destruct (requests_get P _ _) as [r|]; [|reflexivity].
  destruct (status_code r =? 200); simpl.
  - unfold loads, decoded_item, ret, raise.
    destruct (json_loads P (content r)); reflexivity.
  - unfold print, ret, twitter_failure.
    rewrite <- (append_empty (content r)) at 2. reflexivity.
Qed.

Lemma get_instagram_embed_code_run (P : platform) (url : string) (w : world) :
  get_instagram_embed_code P url w
  = match requests_get P (length (requests_log w)) (instagram_query url) with
    | None => (Raise RequestException, requested (instagram_query url) w)
    | Some r =>
        if status_code r =? 200
        then (decoded_item P (content r) INSTAGRAM_HTML_KEY,
              requested (instagram_query url) w)
        else (Ok DNone,
              printed (instagram_failure url r) (requested (instagram_query url) w))
    end.
Proof.
  unfold get_instagram_embed_code, format, bind, lift.
  change (py_format (str_compound P) INSTAGRAM_OEMBED_ENDPOINT [VStr url])
    with (Ok (A:=string) ("https://api.instagram.com/oembed/?url=" +:+ (url +:+ EmptyString))).
  rewrite append_empty. fold (instagram_query url).
  unfold http_get.
  destruct (requests_get P _ _) as [r|]; [|reflexivity].
  destruct (status_code r =? 200); simpl.
  - unfold loads, decoded_item, ret, raise.
    destruct (json_loads P (content r)); reflexivity.
  - reflexivity.
Qed.

Lemma fetcher_run (P : platform) (s : service) (url : string) (w : world) :
  fetcher P s url w
  = match requests_get P (length (requests_log w)) (query s url) with
    | None => (Raise RequestException, requested (query s url) w)
    | Some r =>
        if status_code r =? 200
        then (decoded_item P (content r) "html", requested (query s url) w)
        else (Ok DNone, printed (failure s url r) (requested (query s url) w))
    end.
Proof.
  destruct s; [apply get_twitter_embed_code_run | apply get_instagram_embed_code_run].
Qed.

Lemma contains_here (sub after : string) : contains (sub +:+ after) sub.
Proof. exists EmptyString, after. reflexivity. Qed.

Lemma contains_self (sub : string) : contains sub sub.
Proof. exists EmptyString, EmptyString. now rewrite append_empty. Qed.

Lemma contains_later (before s sub : string) :
  contains s sub -> contains (before +:+ s) sub.
Proof.
  intros (b & a & ->). exists (before +:+ b), a. now rewrite append_assoc.
Qed.

Ltac find_part :=
  repeat first [apply contains_here | apply contains_self | apply contains_later].

Lemma failure_contains (s : service) (url : string) (r : response) :
  contains (failure s url r) url
  /\ contains (failure s url r) (pretty (status_code r))
  /\ contains (failure s url r) (content r).
Proof.
  destruct s; unfold failure, twitter_failure, instagram_failure;
    repeat split; find_part.
Qed.

(** C3: each embed fetcher, once the endpoint has answered: on status 200 it
    returns what the decoded JSON body holds under the key html (the text,
    which is unicode, when that is a text); on any other status it prints
    one line that contains the content URL, the status code and the response
    body, and returns None. *)
Theorem embed_fetcher_outcome (P : platform) (s : service) (url : string)
    (w : world) (r : response) :
  requests_get P (length (requests_log w)) (query s url) = Some r ->
  (status_code r = 200 ->
   forall (items : list (ustring * decoded)) (html : decoded),
     json_loads P (content r) = Some (DDict items) ->
     assoc (to_unicode "html") items = Some html ->
     fst (fetcher P s url w) = Ok html)
  /\ (status_code r <> 200 ->
      fst (fetcher P s url w) = Ok DNone
      /\ stdout (snd (fetcher P s url w)) = stdout w ++ [failure s url r]
      /\ contains (failure s url r) url
      /\ contains (failure s url r) (pretty (status_code r))
      /\ contains (failure s url r) (content r)).
Proof.
  intros Hget. rewrite fetcher_run, Hget. split.
  - intros H200 items html Hjson Hitem. rewrite H200. simpl.
    unfold decoded_item. rewrite Hjson. unfold getitem. now rewrite Hitem.
  - intros Hnot. apply Z.eqb_neq in Hnot. rewrite Hnot. simpl.
    split; [reflexivity|]. split; [reflexivity|]. apply failure_contains.
Qed.

Lemma embed_fetcher_outcome_witness :
  fst (fetcher answering_platform Twitter "https://twitter.com/a/status/1" empty_world)
  = Ok (DUnicode (to_unicode "<blockquote>a tweet</blockquote>"))
  /\ fst (fetcher failing_platform Instagram "https://instagr.am/p/1" empty_world)
     = Ok DNone.
Proof.
  split.
  - apply (proj1 (embed_fetcher_outcome answering_platform Twitter
                    "https://twitter.com/a/status/1" empty_world ok_response
                    eq_refl) eq_refl
             [(to_unicode "url",
               DUnicode (to_unicode "https://twitter.com/a/status/1"));
              (to_unicode "html",
               DUnicode (to_unicode "<blockquote>a tweet</blockquote>"))]);
      reflexivity.
  - apply (proj2 (embed_fetcher_outcome failing_platform Instagram
                    "https://instagr.am/p/1" empty_world not_found_response
                    eq_refl)).
    discriminate.
Defined.

(** ** The dispatch on the content type *)

Lemma html_element_from_embedded_content_run (P : platform) (s : service)
    (url : string) (w : world) :
  html_element_from_embedded_content P url (content_type_of s) w
  = match fetcher P s url w with
    | (Ok embed_code, w') =>
        (Ok (container_text (content_type_of s) (shown_embed P embed_code)), w')
    | (Raise e, w') => (Raise e, w')
    end.
Proof.
  destruct s; unfold html_element_from_embedded_content, bind; simpl;
    match goal with |- context [?f P url w] => destruct (f P url w) as [[v|e] w'] end;
    try reflexivity; destruct v; reflexivity.
Qed.

Lemma embedded_row_run (P : platform) (s : service) (content_dict : row)
    (c : ascii) (u : string) (w : world) :
  dict_get content_dict CSV_KEY_TYPE = Some (content_type_of s) ->
  dict_get content_dict CSV_KEY_URL = Some (String c u) ->
  html_element_from_content P content_dict w
  = match fetcher P s (String c u) w with
    | (Ok embed_code, w') =>
        (Ok (Some (container_text (content_type_of s)
                     (shown_embed P embed_code))), w')
    | (Raise e, w') => (Raise e, w')
    end.
Proof.
  intros Htype Hurl.
  pose proof (html_element_from_embedded_content_run P s (String c u) w) as Hrun.
  unfold html_element_from_content. rewrite Htype, Hurl.
  destruct s; simpl in *; unfold bind; rewrite Hrun;
    match goal with |- context [?f P (String c u) w] =>
      destruct (f P (String c u) w) as [[v|e] w'] end;
    reflexivity.
Qed.

(** C2 (the script does otherwise): when the fetcher of an embedded row
    returns None, the row still gets a fragment: the container of its type
    around the text None, a byte string. *)
Theorem absent_embed_code_is_wrapped (P : platform) (s : service)
    (content_dict : row) (url : string) (w : world) :
  dict_get content_dict CSV_KEY_TYPE = Some (content_type_of s) ->
  dict_get content_dict CSV_KEY_URL = Some url ->
  url <> EmptyString ->
  fst (fetcher P s url w) = Ok DNone ->
  fst (html_element_from_content P content_dict w)
  = Ok (Some (Bytes (container (content_type_of s) "None"))).
Proof.
  intros Htype Hurl Hne Hfetch. destruct url as [|c u]; [congruence|].
  rewrite (embedded_row_run P s content_dict c u w Htype Hurl).
  destruct (fetcher P s (String c u) w) as [[v|e] w']; simpl in Hfetch;
    [|discriminate].
  injection Hfetch as ->. reflexivity.
Qed.

Lemma absent_embed_code_is_wrapped_witness :
  fst (fetcher failing_platform Twitter "https://twitter.com/a/status/1" empty_world)
  = Ok DNone
  /\ fst (html_element_from_content failing_platform tweet_row empty_world)
     = Ok (Some (Bytes (container "twitter" "None"))).
Proof.
  split; [reflexivity|].
  apply (absent_embed_code_is_wrapped failing_platform Twitter tweet_row
           "https://twitter.com/a/status/1" empty_world);
    [reflexivity | reflexivity | discriminate | reflexivity].
Defined.

Lemma embedded_type_service (content_type : string) :
  content_type ∈ EMBEDDED_CONTENT_TYPES ->
  exists s : service, content_type = content_type_of s.
Proof.
  unfold EMBEDDED_CONTENT_TYPES. intros Hin.
  apply elem_of_cons in Hin as [->|Hin]; [now exists Twitter|].
  apply elem_of_cons in Hin as [->|Hin]; [now exists Instagram|].
  apply elem_of_nil in Hin. contradiction.
Qed.

(** C4: a twitter or instagram row whose url is absent or empty gets no
    fragment, and no request is issued for it. *)
Theorem embedded_row_without_url (P : platform) (content_dict : row)
    (content_type : string) (w : world) :
  dict_get content_dict CSV_KEY_TYPE = Some content_type ->
  content_type ∈ EMBEDDED_CONTENT_TYPES ->
  truthy (dict_get content_dict CSV_KEY_URL) = false ->
  fst (html_element_from_content P content_dict w) = Ok None
  /\ requests_log (snd (html_element_from_content P content_dict w))
     = requests_log w.
Proof.
  intros Htype Hin Hurl. apply embedded_type_service in Hin as [s ->].
  unfold html_element_from_content. rewrite Htype.
  destruct (dict_get content_dict CSV_KEY_URL) as [[|c u]|];
    [|discriminate|]; destruct s; split; reflexivity.
Qed.

Lemma embedded_row_without_url_witness :
  fst (html_element_from_content answering_platform tweet_row_without_url
         empty_world) = Ok None
  /\ requests_log (snd (html_element_from_content answering_platform
                          tweet_row_without_url empty_world))
     = requests_log empty_world.
Proof.
  apply (embedded_row_without_url answering_platform tweet_row_without_url
           "twitter" empty_world).
  - reflexivity.
  - unfold EMBEDDED_CONTENT_TYPES. apply elem_of_cons. left. reflexivity.
  - reflexivity.
Defined.

Lemma content_type_cases (content_type : string) :
  content_type ∈ CONTENT_TYPES ->
  (exists s : service, content_type = content_type_of s)
  \/ content_type = CONTENT_TYPE_WEBSITE.
Proof.
  unfold CONTENT_TYPES. intros Hin.
  apply elem_of_cons in Hin as [->|Hin]; [left; now exists Twitter|].
  apply elem_of_cons in Hin as [->|Hin]; [left; now exists Instagram|].
  apply elem_of_cons in Hin as [->|Hin]; [now right|].
  apply elem_of_nil in Hin. contradiction.
Qed.

Lemma decoded_item_no_ValueError (P : platform) (text key msg : string) :
  decoded_item P text key <> Raise (ValueError msg).
Proof.
  unfold decoded_item. destruct (json_loads P text) as [d|]; [|discriminate].
  destruct d; simpl; try discriminate.
  destruct (assoc (to_unicode key) items); discriminate.
Qed.

(** C10: run through the dispatch of [html_element_from_content], the
    fragment builder for embedded content never reaches its raise of
    ValueError: the dispatch calls it with twitter or instagram only, so no
    row, on no platform, ends in that exception. *)
Theorem dispatch_never_raises_ValueError (P : platform) (content_dict : row)
    (w : world) (msg : string) :
  fst (html_element_from_content P content_dict w) <> Raise (ValueError msg).
Proof.
  destruct (dict_get content_dict CSV_KEY_TYPE) as [[|c t]|] eqn:Htype;
    try (unfold html_element_from_content; rewrite Htype; discriminate).
  destruct (decide (String c t ∈ CONTENT_TYPES)) as [Hin|Hout].
  - apply content_type_cases in Hin as [[s Hs]|Hweb].
    + rewrite Hs in Htype.
      destruct (dict_get content_dict CSV_KEY_URL) as [[|d u]|] eqn:Hurl.
      * unfold html_element_from_content. rewrite Htype, Hurl.
        destruct s; discriminate.
      * rewrite (embedded_row_run P s content_dict d u w Htype Hurl), fetcher_run.
        destruct (requests_get P _ _) as [r|]; [|discriminate].
        destruct (status_code r =? 200); [|discriminate].
        pose proof (decoded_item_no_ValueError P (content r) "html" msg) as Hno.
        destruct (decoded_item P (content r) "html") as [v|e]; [discriminate|].
        simpl. intros Heq. apply Hno. now injection Heq as ->.
      * unfold html_element_from_content. rewrite Htype, Hurl.
        destruct s; discriminate.
    + rewrite Hweb in Htype. rewrite (website_row_run P _ w Htype).
      discriminate.
  - unfold html_element_from_content. rewrite Htype.
    rewrite (bool_decide_eq_false_2 _ Hout). discriminate.
Qed.

(** The raise is there all the same: called with another type, the builder
    for embedded content ends in it. *)
Lemma embedded_builder_raises_on_website (P : platform) (url : string) (w : world) :
  exists msg,
    html_element_from_embedded_content P url CONTENT_TYPE_WEBSITE w
    = (Raise (ValueError msg), w).
Proof. eexists. reflexivity. Qed.

(** ** Which steps touch the files *)

Lemma keeps_files_ret {A} (a : A) : keeps_files (ret a).
Proof. intros w. reflexivity. Qed.

Lemma keeps_files_raise {A} (e : exn) : keeps_files (raise (A:=A) e).
Proof. intros w. reflexivity. Qed.

Lemma keeps_files_lift {A} (r : result A) : keeps_files (lift r).
Proof. intros w. reflexivity. Qed.

Lemma keeps_files_print (line : string) : keeps_files (print line).
Proof. intros w. reflexivity. Qed.

Lemma keeps_files_format (P : platform) fmt args : keeps_files (format P fmt args).
Proof. intros w. reflexivity. Qed.

Lemma keeps_files_format_text (P : platform) fmt args :
  keeps_files (format_text P fmt args).
Proof. intros w. reflexivity. Qed.

Lemma keeps_files_read_file (path : string) : keeps_files (read_file path).
Proof. intros w. unfold read_file. destruct (files w !! path); reflexivity. Qed.

Lemma keeps_files_isfile (path : string) : keeps_files (isfile path).
Proof. intros w. reflexivity. Qed.

Lemma keeps_files_http_get (P : platform) (url : string) :
  keeps_files (http_get P url).
Proof. intros w. unfold http_get. destruct (requests_get P _ url); reflexivity. Qed.

Lemma keeps_files_bind {A B} (c : M A) (k : A -> M B) :
  keeps_files c -> (forall a, keeps_files (k a)) -> keeps_files (bind c k).
Proof.
  intros Hc Hk w. unfold bind. specialize (Hc w).
  destruct (c w) as [[a|e] w']; simpl in *; [|exact Hc].
  now rewrite Hk.
Qed.

Create HintDb files_db.
#[local] Hint Resolve keeps_files_ret keeps_files_raise keeps_files_lift
  keeps_files_print keeps_files_format keeps_files_format_text
  keeps_files_read_file
  keeps_files_isfile keeps_files_http_get : files_db.

(** Walks down a computation written with [bind], splitting on what it
    branches on. *)
Ltac walk db :=
  repeat first
    [ solve [auto with db]
    | apply keeps_files_bind; [|intro]
    | match goal with
      | |- _ (match ?x with _ => _ end) => destruct x
      end ].

Lemma keeps_files_loads (P : platform) text : keeps_files (loads P text).
Proof. unfold loads. walk files_db. Qed.
#[local] Hint Resolve keeps_files_loads : files_db.

Lemma keeps_files_get_twitter_embed_code (P : platform) url :
  keeps_files (get_twitter_embed_code P url).
Proof. unfold get_twitter_embed_code. walk files_db. Qed.

Lemma keeps_files_get_instagram_embed_code (P : platform) url :
  keeps_files (get_instagram_embed_code P url).
Proof. unfold get_instagram_embed_code. walk files_db. Qed.
#[local] Hint Resolve keeps_files_get_twitter_embed_code
  keeps_files_get_instagram_embed_code : files_db.

Lemma keeps_files_html_element_from_embedded_content (P : platform) url ty :
  keeps_files (html_element_from_embedded_content P url ty).
Proof. unfold html_element_from_embedded_content. walk files_db. Qed.

Lemma keeps_files_html_element_from_website_content (P : platform) url quote :
  keeps_files (html_element_from_website_content P url quote).
Proof. unfold html_element_from_website_content. walk files_db. Qed.
#[local] Hint Resolve keeps_files_html_element_from_embedded_content
  keeps_files_html_element_from_website_content : files_db.

Lemma keeps_files_html_element_from_content (P : platform) content_dict :
  keeps_files (html_element_from_content P content_dict).
Proof. unfold html_element_from_content. walk files_db. Qed.
#[local] Hint Resolve keeps_files_html_element_from_content : files_db.

Lemma keeps_files_process_rows (P : platform) total rows :
  forall i elems, keeps_files (process_rows P total i rows elems).
Proof.
  induction rows as [|content_dict rest IH]; intros i elems; simpl.
  - auto with files_db.
  - walk files_db.
Qed.

Lemma keeps_files_content_from_csv (P : platform) path :
  keeps_files (content_from_csv P path).
Proof. unfold content_from_csv. walk files_db. Qed.

Lemma keeps_files_validate_filepath (P : platform) path :
  keeps_files (validate_filepath P path).
Proof. unfold validate_filepath. walk files_db. Qed.

Lemma keeps_files_generate_page (P : platform) template elems :
  keeps_files (generate_page P template elems).
Proof. unfold generate_page. walk files_db. Qed.
#[local] Hint Resolve keeps_files_process_rows keeps_files_content_from_csv
  keeps_files_validate_filepath keeps_files_generate_page : files_db.

(** ** The output path *)

Lemma keeps_files_bind_ret {A B} (a : A) (k : A -> M B) :
  keeps_files (k a) -> keeps_files (bind (ret a) k).
Proof. intros Hk w. apply Hk. Qed.

Lemma always_raises_raise {A} (e : exn) : always_raises (raise (A:=A) e).
Proof. intros w. now exists e. Qed.

Lemma always_raises_bind {A B} (c : M A) (k : A -> M B) :
  (forall a, always_raises (k a)) -> always_raises (bind c k).
Proof.
  intros Hk w. unfold bind. destruct (c w) as [[a|e] w']; [apply Hk|].
  now exists e.
Qed.

Lemma always_raises_bind_ret {A B} (a : A) (k : A -> M B) :
  always_raises (k a) -> always_raises (bind (ret a) k).
Proof. intros Hk w. apply Hk. Qed.

(** C9 (the script does otherwise): whenever the output-file flag is given,
    the run ends in an exception and writes no file at all: the flag's path
    is assigned to the template path, and the output path stays unbound. *)
Theorem outfile_flag_aborts (P : platform) (args : arguments) (c : ascii)
    (given : string) (w : world) :
  outfile args = Some (String c given) ->
  (exists e, fst (main P args w) = Raise e)
  /\ files (snd (main P args w)) = files w.
Proof.
  intros Hout. split.
  - revert w. change (always_raises (main P args)). unfold main. rewrite Hout.
    do 4 (apply always_raises_bind; intro).
    apply always_raises_bind_ret. simpl.
    do 7 (apply always_raises_bind; intro).
    apply always_raises_raise.
  - revert w. change (keeps_files (main P args)). unfold main. rewrite Hout.
    do 4 (apply keeps_files_bind; [walk files_db | intro]).
    apply keeps_files_bind_ret. simpl. walk files_db.
Qed.

Lemma outfile_flag_aborts_witness :
  (exists e, fst (main answering_platform outfile_argument
                    (world_with_template "<html>%s</html>")) = Raise e)
  /\ files (snd (main answering_platform outfile_argument
                   (world_with_template "<html>%s</html>")))
     = files (world_with_template "<html>%s</html>").
Proof.
  apply (outfile_flag_aborts answering_platform outfile_argument "o" "ut.html").
  reflexivity.
Defined.

(** With the flag given, the template is read from the flag's path: here that
    path is no file, and the run ends on reading it. *)
Example outfile_flag_template_path :
  fst (main answering_platform outfile_argument
         (world_with_template "<html>%s</html>"))
  = Raise (IOError "out.html").
Proof. vm_compute. reflexivity. Qed.

(** Without the flag, the page goes to the default path. *)
Example default_outfile_written :
  fst (main answering_platform no_arguments (world_with_template "<html>%s</html>"))
  = Ok tt
  /\ files (snd (main answering_platform no_arguments
                   (world_with_template "<html>%s</html>")))
     !! DEFAULT_OUTFILE_PATH
     = Some "<html></html>".
Proof. vm_compute. split; reflexivity. Qed.

(** ** Skipped rows and the assembly of the page *)

Lemma skipped_row_fragment (P : platform) (content_dict : row) (w : world) :
  skipped content_dict = true ->
  fst (html_element_from_content P content_dict w) = Ok None.
Proof.
  unfold skipped, html_element_from_content.
  destruct (dict_get content_dict CSV_KEY_TYPE) as [[|c t]|]; try reflexivity.
  destruct (bool_decide (String c t ∈ CONTENT_TYPES)); simpl; [|reflexivity].
  destruct (bool_decide (String c t ∈ EMBEDDED_CONTENT_TYPES)); simpl;
    [|discriminate].
  destruct (dict_get content_dict CSV_KEY_URL) as [[|d u]|]; simpl;
    try reflexivity; discriminate.
Qed.

Lemma escape_all_absent (elems : list (option basestring)) :
  None ∈ elems -> escape_all elems = Raise AttributeError.
Proof.
  induction elems as [|[elem|] rest IH]; intros Hin.
  - apply elem_of_nil in Hin. contradiction.
  - apply elem_of_cons in Hin as [Hin|Hin]; [discriminate|].
    simpl. now rewrite IH.
  - reflexivity.
Qed.

Lemma escape_all_present (frags : list basestring) :
  escape_all (map Some frags) = Ok (map replace_percent frags).
Proof.
  induction frags as [|frag rest IH]; simpl; [reflexivity | now rewrite IH].
Qed.

Lemma generate_page_absent (P : platform) (page_template : string)
    (elems : list (option basestring)) (w : world) :
  None ∈ elems ->
  generate_page P page_template elems w = (Raise AttributeError, w).
Proof.
  intros Hin. unfold generate_page, bind, lift.
  now rewrite (escape_all_absent elems Hin).
Qed.

Lemma process_rows_absent (P : platform) (total : nat) (rows : list row) :
  forall (i : nat) (acc elems : list (option basestring)) (w w' : world),
    process_rows P total i rows acc w = (Ok elems, w') ->
    None ∈ acc \/ (exists content_dict, content_dict ∈ rows
                                   /\ skipped content_dict = true) ->
    None ∈ elems.
Proof.
  induction rows as [|content_dict rest IH]; intros i acc elems w w' Hrun Hskip.
  - simpl in Hrun. injection Hrun as <- _.
    destruct Hskip as [Hacc|(r & Hin & _)]; [exact Hacc|].
    apply elem_of_nil in Hin. contradiction.
  - simpl in Hrun. unfold bind at 1 2 3 in Hrun. simpl in Hrun.
    match type of Hrun with context [html_element_from_content P content_dict ?v] =>
      pose proof (skipped_row_fragment P content_dict v) as Hfrag;
      destruct (html_element_from_content P content_dict v) as [[elem|e] w1]
    end; [|discriminate].
    apply (IH _ _ _ _ _ Hrun).
    destruct Hskip as [Hacc|(r & Hin & Hr)].
    + left. apply elem_of_app. now left.
    + apply elem_of_cons in Hin as [->|Hin].
      * left. apply elem_of_app. right. simpl in Hfrag.
        specialize (Hfrag Hr). injection Hfrag as ->. apply list_elem_of_singleton.
        reflexivity.
      * right. now exists r.
Qed.

Lemma aborts_bind {A B} (F : gmap string string) (c : M A) (k : A -> M B)
    (w : world) :
  keeps_files c ->
  files w = F ->
  (forall a w', c w = (Ok a, w') -> files w' = F -> aborts_leaving F (k a) w') ->
  aborts_leaving F (bind c k) w.
Proof.
  intros Hkeep HF Hk. unfold aborts_leaving, bind. specialize (Hkeep w).
  destruct (c w) as [[a|e] w'] eqn:Hc; simpl in Hkeep.
  - apply Hk; [reflexivity | congruence].
  - split; [now exists e | simpl; congruence].
Qed.

Lemma resolve_step (P : platform) (flag : option string) (note default : string)
    (a : string) (w w' : world) :
  match flag with
  | Some (String _ _ as given) => ret given
  | _ => line <- format P note [VStr default] ;; print line ;; ret default
  end w = (Ok a, w') ->
  a = resolved flag default.
Proof.
  destruct flag as [[|c g]|]; unfold bind, format, lift, ret; simpl;
    try (destruct (py_format _ _ _); simpl); congruence.
Qed.

Lemma content_from_csv_rows (P : platform) (path text : string) (rows content : list row)
    (w w' : world) :
  files w !! path = Some text ->
  csv_DictReader P text = Some rows ->
  content_from_csv P path w = (Ok content, w') ->
  content = rows.
Proof.
  intros Hfile Hcsv. unfold content_from_csv, bind, read_file.
  rewrite Hfile, Hcsv. unfold ret. congruence.
Qed.

(** C1 (the script does otherwise): a row the dispatch skips is not dropped
    before assembly.  Its None stays in the list of fragments, so whenever the
    table holds such a row the run ends in an exception and writes no page. *)
Theorem skipped_row_aborts_run (P : platform) (args : arguments) (w : world)
    (text : string) (rows : list row) :
  truthy (outfile args) = false ->
  files w !! resolved (content_csv args) DEFAULT_CONTENT_CSV_PATH = Some text ->
  csv_DictReader P text = Some rows ->
  (exists content_dict, content_dict ∈ rows /\ skipped content_dict = true) ->
  aborts_leaving (files w) (main P args) w.
Proof.
  intros Hout Hfile Hcsv Hskip. unfold main.
  apply aborts_bind; [walk files_db | reflexivity | intros p1 w1 H1 F1].
  apply resolve_step in H1. subst p1.
  apply aborts_bind; [walk files_db | exact F1 | intros _ w2 _ F2].
  apply aborts_bind; [walk files_db | exact F2 | intros p2 w3 _ F3].
  apply aborts_bind; [walk files_db | exact F3 | intros _ w4 _ F4].
  apply aborts_bind; [walk files_db | exact F4 | intros paths w5 H5 F5].
  assert (snd paths = Some DEFAULT_OUTFILE_PATH) as Hpaths.
  { destruct (outfile args) as [[|c g]|]; try discriminate;
      unfold bind, format, lift, print, ret in H5; simpl in H5;
      now injection H5 as <- _. }
  cbv zeta. rewrite Hpaths. clear H5 Hpaths.
  apply aborts_bind; [walk files_db | exact F5 | intros _ w6 _ F6].
  apply aborts_bind; [walk files_db | exact F6 | intros content w7 H7 F7].
  rewrite <- F6 in Hfile.
  apply (content_from_csv_rows P _ text rows content w6 w7 Hfile Hcsv) in H7.
  subst content.
  apply aborts_bind; [walk files_db | exact F7 | intros line w8 _ F8].
  apply aborts_bind; [walk files_db | exact F8 | intros _ w9 _ F9].
  apply aborts_bind; [walk files_db | exact F9 | intros elems w10 H10 F10].
  apply process_rows_absent in H10; [|now right].
  apply aborts_bind; [walk files_db | exact F10 | intros template w11 _ F11].
  unfold aborts_leaving, bind. rewrite (generate_page_absent P _ elems w11 H10).
  split; [now exists AttributeError | exact F11].
Qed.

Lemma skipped_row_aborts_run_witness :
  aborts_leaving (files (world_with_template "<html>%s</html>"))
    (main (offline_platform [foo_row]) no_arguments)
    (world_with_template "<html>%s</html>").
Proof.
  apply (skipped_row_aborts_run (offline_platform [foo_row]) no_arguments
           (world_with_template "<html>%s</html>") "(the content table)" [foo_row]).
  - reflexivity.
  - vm_compute. reflexivity.
  - reflexivity.
  - exists foo_row. split; [apply elem_of_cons; now left | reflexivity].
Defined.

(** The exception is the AttributeError of the list comprehension. *)
Example skipped_row_exception :
  fst (main (offline_platform [foo_row]) no_arguments
         (world_with_template "<html>%s</html>"))
  = Raise AttributeError.
Proof. vm_compute. reflexivity. Qed.

(** ** The page *)

Lemma tprepend_empty (r : result basestring) : tprepend EmptyString r = r.
Proof. destruct r as [[s|u]|e]; reflexivity. Qed.

Lemma tprepend_cons (c : ascii) (s : string) (r : result basestring) :
  tprepend (String c EmptyString) (tprepend s r) = tprepend (String c s) r.
Proof.
  destruct r as [[t|u]|e]; try reflexivity.
  unfold tprepend, decode. cbn [is_ascii to_unicode].
  destruct (is_ascii s); [|now rewrite andb_false_r].
  rewrite !andb_true_r. now destruct (N_of_ascii c <? 128)%N.
Qed.

Lemma py_format_text_literal sc (pre rest : string) (args : list object) :
  occurs percent pre = false ->
  forall i,
    py_format_text_from sc i (pre +:+ rest) args
    = tprepend pre (py_format_text_from sc (i + String.length pre) rest args).
Proof.
  induction pre as [|c pre IH]; intros Hpre i.
  - change (EmptyString +:+ rest) with rest. cbn [String.length].
    now rewrite Nat.add_0_r, tprepend_empty.
  - cbn [occurs] in Hpre. apply orb_false_iff in Hpre as [Hc Hpre].
    change (String c pre +:+ rest) with (String c (pre +:+ rest)).
    cbn [py_format_text_from String.length].
    rewrite Ascii.eqb_sym, Hc, (IH Hpre), tprepend_cons.
    now rewrite Nat.add_succ_r.
Qed.

Lemma py_format_text_plain sc (post : string) (i : nat) :
  occurs percent post = false ->
  py_format_text_from sc i post [] = Ok (Bytes post).
Proof.
  intros Hpost. rewrite <- (append_empty post) at 1.
  rewrite (py_format_text_literal sc post EmptyString [] Hpost).
  cbn [py_format_text_from tprepend]. now rewrite append_empty.
Qed.

Lemma unicode_format_plain sc (post : string) (i : nat) :
  occurs percent post = false ->
  unicode_format_from sc i post [] = Ok (to_unicode post).
Proof.
  revert i. induction post as [|c post IH]; intros i Hpost; [reflexivity|].
  cbn [occurs] in Hpost. apply orb_false_iff in Hpost as [Hc Hpost].
  cbn [unicode_format_from]. rewrite Ascii.eqb_sym, Hc, (IH _ Hpost).
  reflexivity.
Qed.

Lemma is_ascii_append (a b : string) :
  is_ascii (a +:+ b) = is_ascii a && is_ascii b.
Proof.
  induction a as [|c a IH]; [reflexivity|].
  change (String c a +:+ b) with (String c (a +:+ b)).
  cbn [is_ascii]. now rewrite IH, andb_assoc.
Qed.

Lemma to_unicode_append (a b : string) :
  to_unicode (a +:+ b) = to_unicode a ++ to_unicode b.
Proof.
  induction a as [|c a IH]; [reflexivity|].
  change (String c a +:+ b) with (String c (a +:+ b)).
  cbn [to_unicode]. now rewrite IH.
Qed.

(** The substitution of a byte string into a template of one placeholder. *)
Lemma py_format_text_placeholder sc (pre post inserted : string) :
  occurs percent pre = false ->
  occurs percent post = false ->
  py_format_text sc (pre +:+ "%s" +:+ post) [OValue (VStr inserted)]
  = Ok (Bytes (pre +:+ inserted +:+ post)).
Proof.
  intros Hpre Hpost. unfold py_format_text.
  rewrite (py_format_text_literal sc pre _ _ Hpre).
  change ("%s" +:+ post) with (String percent (String "s" post)).
  cbn [py_format_text_from]. rewrite Ascii.eqb_refl.
  unfold text_directive.
  change (Ascii.eqb "s" percent) with false. cbn match.
  change (Ascii.eqb "s" "s") with true. cbn match.
  now rewrite (py_format_text_plain sc post _ Hpost).
Qed.

(** The substitution of unicode text: the template is decoded as ASCII. *)
Lemma py_format_text_placeholder_unicode sc (pre post : string) (inserted : ustring) :
  occurs percent pre = false ->
  occurs percent post = false ->
  py_format_text sc (pre +:+ "%s" +:+ post) [OUnicode inserted]
  = if is_ascii pre && is_ascii post
    then Ok (Unicode (to_unicode pre ++ inserted ++ to_unicode post))
    else Raise UnicodeDecodeError.
Proof.
  intros Hpre Hpost. unfold py_format_text.
  rewrite (py_format_text_literal sc pre _ _ Hpre).
  change ("%s" +:+ post) with (String percent (String "s" post)).
  cbn [py_format_text_from]. rewrite Ascii.eqb_refl.
  unfold text_directive.
  change (Ascii.eqb "s" percent) with false. cbn match.
  change (Ascii.eqb "s" "s") with true. cbn match.
  unfold decode at 1.
  change (is_ascii (String percent (String "s" post))) with (is_ascii post).
  destruct (is_ascii post); [|now rewrite andb_false_r].
  rewrite andb_true_r. cbn [unicode_format_from]. rewrite Ascii.eqb_refl.
  unfold unicode_directive.
  change (Ascii.eqb "s" percent) with false. cbn match.
  change (Ascii.eqb "s" "s") with true. cbn match.
  rewrite (unicode_format_plain sc post _ Hpost).
  cbn [uprepend result_map tprepend]. unfold decode.
  now destruct (is_ascii pre).
Qed.

(** Joining byte strings, and joining text that holds unicode. *)
Lemma all_bytes_map (parts : list string) : all_bytes (map Bytes parts) = Some parts.
Proof.
  induction parts as [|s parts IH]; [reflexivity|]. cbn. now rewrite IH.
Qed.

Lemma join_text_bytes (sep : string) (parts : list string) :
  join_text sep (map Bytes parts) = Ok (Bytes (join sep parts)).
Proof.
  unfold join_text. destruct parts as [|s [|s' parts]]; try reflexivity.
  now rewrite all_bytes_map.
Qed.


Lemma all_unicode_run (items : list basestring) :
  all_unicode items
  = if ascii_fragments items then Ok (map to_utext items)
    else Raise UnicodeDecodeError.
Proof.
  induction items as [|item rest IH]; [reflexivity|].
  cbn [all_unicode map]. rewrite IH.
  change (ascii_fragments (item :: rest))
    with (ascii_fragment item && ascii_fragments rest).
  destruct item as [s|u]; cbn [as_unicode to_utext ascii_fragment].
  - unfold decode. destruct (is_ascii s); [|reflexivity].
    now destruct (ascii_fragments rest).
  - now destruct (ascii_fragments rest).
Qed.

Lemma join_text_unicode (sep : string) (items : list basestring) :
  all_bytes items = None ->
  is_ascii sep = true ->
  join_text sep items
  = if ascii_fragments items
    then Ok (Unicode (ujoin (to_unicode sep) (map to_utext items)))
    else Raise UnicodeDecodeError.
Proof.
  intros Hsome Hsep. unfold join_text.
  destruct items as [|item [|item' rest]].
  - discriminate.
  - destruct item as [s|u]; [discriminate | reflexivity].
  - rewrite Hsome. unfold decode at 1. rewrite Hsep, all_unicode_run.
    now destruct (ascii_fragments _).
Qed.

Lemma all_bytes_replace_percent (items : list basestring) :
  all_bytes items = None -> all_bytes (map replace_percent items) = None.
Proof.
  induction items as [|[s|u] rest IH]; intros Hsome; try discriminate.
  - cbn in *. destruct (all_bytes rest); [discriminate|]. now rewrite IH.
  - reflexivity.
Qed.

Lemma is_ascii_escape_percent (s : string) :
  is_ascii (escape_percent s) = is_ascii s.
Proof.
  induction s as [|c s IH]; [reflexivity|]. cbn [escape_percent is_ascii].
  destruct (Ascii.eqb_spec c percent) as [->|_]; cbn [is_ascii]; now rewrite IH.
Qed.

Lemma to_unicode_escape_percent (s : string) :
  to_unicode (escape_percent s) = uescape_percent (to_unicode s).
Proof.
  induction s as [|c s IH]; [reflexivity|].
  cbn [escape_percent to_unicode uescape_percent].
  destruct (Ascii.eqb_spec c percent) as [->|Hc].
  - cbn [to_unicode]. now rewrite IH.
  - cbn [to_unicode]. rewrite IH.
    destruct (N.eqb_spec (N_of_ascii c) 37) as [Hcode|_]; [|reflexivity].
    exfalso. apply Hc. rewrite <- (ascii_N_embedding c), Hcode. reflexivity.
Qed.

Lemma to_utext_replace_percent (items : list basestring) :
  map to_utext (map replace_percent items)
  = map uescape_percent (map to_utext items).
Proof.
  induction items as [|[s|u] rest IH]; [reflexivity| |]; cbn; rewrite IH;
    [now rewrite to_unicode_escape_percent | reflexivity].
Qed.

Lemma ascii_replace_percent (items : list basestring) :
  ascii_fragments (map replace_percent items) = ascii_fragments items.
Proof.
  unfold ascii_fragments. induction items as [|[s|u] rest IH]; [reflexivity| |];
    cbn [map forallb replace_percent ascii_fragment]; rewrite IH;
    [now rewrite is_ascii_escape_percent | reflexivity].
Qed.

(** The page of byte fragments, and the page when a fragment is unicode. *)
Lemma generate_page_bytes (P : platform) (pre post : string)
    (frags : list string) (w : world) :
  occurs percent pre = false ->
  occurs percent post = false ->
  generate_page P (pre +:+ "%s" +:+ post) (map Some (map Bytes frags)) w
  = (Ok (Bytes (pre +:+ join blank_line (map escape_percent frags) +:+ post)), w).
Proof.
  intros Hpre Hpost. unfold generate_page, bind, lift, format_text.
  rewrite escape_all_present, map_map. cbn [replace_percent].
  rewrite <- (map_map escape_percent Bytes), join_text_bytes.
  cbn [object_of_text].
  now rewrite (py_format_text_placeholder _ pre post _ Hpre Hpost).
Qed.

Lemma generate_page_unicode (P : platform) (pre post : string)
    (frags : list basestring) (w : world) :
  occurs percent pre = false ->
  occurs percent post = false ->
  all_bytes frags = None ->
  generate_page P (pre +:+ "%s" +:+ post) (map Some frags) w
  = (if ascii_fragments frags && (is_ascii pre && is_ascii post)
     then Ok (Unicode (upage_of pre post frags))
     else Raise UnicodeDecodeError, w).
Proof.
  intros Hpre Hpost Hsome. unfold generate_page, bind, lift, format_text.
  rewrite escape_all_present. change (newline +:+ newline) with blank_line.
  rewrite (join_text_unicode blank_line _ (all_bytes_replace_percent _ Hsome)
             eq_refl), ascii_replace_percent.
  destruct (ascii_fragments frags); [|reflexivity].
  cbn [object_of_text andb].
  rewrite (py_format_text_placeholder_unicode _ pre post _ Hpre Hpost).
  rewrite to_utext_replace_percent. reflexivity.
Qed.




(** ** The example of the specification *)

(** C6, as stated, fails: on the two rows of the example the run ends in an
    exception and no page is written; the page claimed also closes one span
    more than the script's templates open. *)
Lemma example_rows_no_page :
  fst (main (offline_platform [website_row; foo_row]) no_arguments
         (world_with_template "<html>%s</html>"))
  = Raise AttributeError
  /\ files (snd (main (offline_platform [website_row; foo_row]) no_arguments
                   (world_with_template "<html>%s</html>")))
     !! DEFAULT_OUTFILE_PATH
     <> Some example_page_claimed.
Proof. vm_compute. split; [reflexivity | discriminate]. Qed.

(** Row by row the claimed page fails too: it is not the page of the first
    row alone. *)
Example example_page_differs : example_page <> example_page_claimed.
Proof. vm_compute. discriminate. Qed.

Lemma bind_ok {A B} (c : M A) (k : A -> M B) (w w' : world) (a : A) :
  c w = (Ok a, w') -> bind c k w = k a w'.
Proof. intros Hc. unfold bind. now rewrite Hc. Qed.

Lemma validate_filepath_ok (P : platform) (path text : string) (w : world) :
  files w !! path = Some text -> validate_filepath P path w = (Ok tt, w).
Proof.
  intros Hfile. unfold validate_filepath, bind, isfile. rewrite Hfile.
  rewrite bool_decide_eq_true_2; [reflexivity | now exists text].
Qed.

Lemma content_from_csv_ok (P : platform) (path text : string) (rows : list row)
    (w : world) :
  files w !! path = Some text ->
  csv_DictReader P text = Some rows ->
  content_from_csv P path w = (Ok rows, w).
Proof.
  intros Hfile Hcsv. unfold content_from_csv, bind, read_file.
  now rewrite Hfile, Hcsv.
Qed.

Lemma read_file_ok (path text : string) (w : world) :
  files w !! path = Some text -> read_file path w = (Ok text, w).
Proof. intros Hfile. unfold read_file. now rewrite Hfile. Qed.

(** C6, amended: the second row of the example gets no fragment; the first
    row alone, with the template of the example, gives the page with the
    website block inside its container and nothing more, written to the
    default output path. *)
Theorem example_website_row_page (P : platform) (w : world) (text : string) :
  files w !! DEFAULT_CONTENT_CSV_PATH = Some text ->
  csv_DictReader P text = Some [website_row] ->
  files w !! DEFAULT_PAGE_TEMPLATE_PATH = Some "<html>%s</html>" ->
  fst (html_element_from_content P foo_row w) = Ok None
  /\ fst (main P no_arguments w) = Ok tt
  /\ files (snd (main P no_arguments w))
     = <[DEFAULT_OUTFILE_PATH := example_page]> (files w).
Proof.
  intros Hcsv Hrows Htemplate. split; [reflexivity|].
  unfold main. cbn [content_csv page_template outfile no_arguments].
  erewrite bind_ok; [|reflexivity].
  erewrite bind_ok; [|now apply (validate_filepath_ok P _ text)].
  erewrite bind_ok; [|reflexivity].
  erewrite bind_ok; [|now apply (validate_filepath_ok P _ "<html>%s</html>")].
  erewrite bind_ok; [|reflexivity].
  cbv zeta. cbn [fst snd].
  erewrite bind_ok; [|reflexivity].
  erewrite bind_ok; [|now apply (content_from_csv_ok P _ text [website_row])].
  erewrite bind_ok; [|reflexivity].
  erewrite bind_ok; [|reflexivity].
  erewrite bind_ok.
  2:{ cbn [process_rows length]. erewrite bind_ok; [|reflexivity].
      erewrite bind_ok; [|reflexivity].
      erewrite bind_ok; [|now apply website_row_run].
      reflexivity. }
  erewrite bind_ok; [|now apply (read_file_ok _ "<html>%s</html>")].
  erewrite bind_ok; [|reflexivity].
  erewrite bind_ok; [|reflexivity].
  split; [reflexivity|].
  rewrite <- (insert_insert_eq (files w) DEFAULT_OUTFILE_PATH example_page
                EmptyString).
  reflexivity.
Qed.

Lemma example_website_row_page_witness :
  fst (main (offline_platform [website_row]) no_arguments
         (world_with_template "<html>%s</html>")) = Ok tt
  /\ files (snd (main (offline_platform [website_row]) no_arguments
                   (world_with_template "<html>%s</html>")))
     !! DEFAULT_OUTFILE_PATH
     = Some example_page.
Proof.
  destruct (example_website_row_page (offline_platform [website_row])
              (world_with_template "<html>%s</html>") "(the content table)")
    as (_ & Hok & Hfiles); [vm_compute; reflexivity | reflexivity
                           | vm_compute; reflexivity |].
  split; [exact Hok|]. rewrite Hfiles. apply lookup_insert_eq.
Defined.

(** ** Determinism *)

Section Replay.
Variable P : platform.
Variable net : nat -> string -> option response.

Lemma replays_quiet {A} (c : M A) :
  (forall w, requests_log (snd (c w)) = requests_log w) -> replays P net c c.
Proof.
  intros Hquiet w. split; [|reflexivity].
  exists []. now rewrite Hquiet, app_nil_r.
Qed.

Lemma replays_ret {A} (a : A) : replays P net (ret a) (ret a).
Proof. now apply replays_quiet. Qed.

Lemma replays_raise {A} (e : exn) : replays P net (raise (A:=A) e) (raise e).
Proof. now apply replays_quiet. Qed.

Lemma replays_lift {A} (r : result A) : replays P net (lift r) (lift r).
Proof. now apply replays_quiet. Qed.

Lemma replays_print (line : string) : replays P net (print line) (print line).
Proof. now apply replays_quiet. Qed.

Lemma replays_read_file (path : string) :
  replays P net (read_file path) (read_file path).
Proof.
  apply replays_quiet. intros w. unfold read_file.
  now destruct (files w !! path).
Qed.

Lemma replays_isfile (path : string) : replays P net (isfile path) (isfile path).
Proof. now apply replays_quiet. Qed.

Lemma replays_write_file (path : string) (page : basestring) :
  replays P net (write_file path page) (write_file path page).
Proof.
  apply replays_quiet. intros w. unfold write_file, bind, open_for_writing.
  destruct page as [s|u]; cbn [file_write]; [reflexivity|].
  now destruct (encode u).
Qed.

Lemma replays_format (fmt : string) (args : list value) :
  replays P net (format P fmt args) (format (with_network P net) fmt args).
Proof. exact (replays_lift _). Qed.

Lemma replays_format_text (fmt : string) (args : list object) :
  replays P net (format_text P fmt args)
    (format_text (with_network P net) fmt args).
Proof. exact (replays_lift _). Qed.

Lemma replays_loads (text : string) :
  replays P net (loads P text) (loads (with_network P net) text).
Proof.
  change (loads (with_network P net) text) with (loads P text).
  apply replays_quiet. intros w. unfold loads.
  now destruct (json_loads P text).
Qed.

Lemma replays_http_get (url : string) :
  replays P net (http_get P url) (http_get (with_network P net) url).
Proof.
  intros w. split.
  - exists [url]. unfold http_get. now destruct (requests_get P _ url).
  - intros Hsame. unfold http_get at 1. cbn [requests_get with_network].
    rewrite <- (Hsame (length (requests_log w)) url); [reflexivity | lia |].
    unfold http_get. destruct (requests_get P _ url); simpl;
      apply list_lookup_middle; reflexivity.
Qed.

Lemma replays_bind {A B} (c c' : M A) (k k' : A -> M B) :
  replays P net c c' ->
  (forall a, replays P net (k a) (k' a)) ->
  replays P net (bind c k) (bind c' k').
Proof.
  intros Hc Hk w. destruct (Hc w) as [[m1 Hm1] Hsame1]. unfold bind.
  destruct (c w) as [[a|e] w1] eqn:Hcw; simpl in Hm1, Hsame1.
  - destruct (Hk a w1) as [[m2 Hm2] Hsame2]. split.
    + exists (m1 ++ m2). now rewrite Hm2, Hm1, app_assoc.
    + intros Hall. rewrite Hsame1.
      * apply Hsame2. intros i url Hi Hlook. apply Hall; [|exact Hlook].
        rewrite Hm1, length_app in Hi. lia.
      * intros i url Hi Hlook. apply Hall; [exact Hi|].
        rewrite Hm2. now apply lookup_app_l_Some.
  - split; [now exists m1|]. intros Hall. now rewrite Hsame1.
Qed.
End Replay.

Create HintDb replay_db.
#[local] Hint Resolve replays_ret replays_raise replays_lift replays_print
  replays_read_file replays_isfile replays_write_file replays_format
  replays_format_text replays_loads replays_http_get : replay_db.

Ltac replay :=
  cbn [str_row with_network];
  repeat first
    [ solve [auto with replay_db]
    | apply replays_bind; [|intro]
    | match goal with
      | |- replays _ _ (match ?x with _ => _ end) _ => destruct x
      end ].

Section ReplayScript.
Variable P : platform.
Variable net : nat -> string -> option response.

Lemma replays_get_twitter_embed_code (url : string) :
  replays P net (get_twitter_embed_code P url)
    (get_twitter_embed_code (with_network P net) url).
Proof. unfold get_twitter_embed_code. replay. Qed.

Lemma replays_get_instagram_embed_code (url : string) :
  replays P net (get_instagram_embed_code P url)
    (get_instagram_embed_code (with_network P net) url).
Proof. unfold get_instagram_embed_code. replay. Qed.

Hint Resolve replays_get_twitter_embed_code replays_get_instagram_embed_code
  : replay_db.

Lemma replays_html_element_from_embedded_content (url content_type : string) :
  replays P net (html_element_from_embedded_content P url content_type)
    (html_element_from_embedded_content (with_network P net) url content_type).
Proof. unfold html_element_from_embedded_content. replay. Qed.

Lemma replays_html_element_from_website_content (url quote : option string) :
  replays P net (html_element_from_website_content P url quote)
    (html_element_from_website_content (with_network P net) url quote).
Proof. unfold html_element_from_website_content. replay. Qed.

Hint Resolve replays_html_element_from_embedded_content
  replays_html_element_from_website_content : replay_db.

Lemma replays_html_element_from_content (content_dict : row) :
  replays P net (html_element_from_content P content_dict)
    (html_element_from_content (with_network P net) content_dict).
Proof. unfold html_element_from_content. replay. Qed.

Hint Resolve replays_html_element_from_content : replay_db.

Lemma replays_process_rows (total : nat) (rows : list row) :
  forall (i : nat) (elems : list (option basestring)),
    replays P net (process_rows P total i rows elems)
      (process_rows (with_network P net) total i rows elems).
Proof.
  induction rows as [|content_dict rest IH]; intros i elems;
    cbn [process_rows]; replay.
Qed.

Lemma replays_content_from_csv (path : string) :
  replays P net (content_from_csv P path)
    (content_from_csv (with_network P net) path).
Proof.
  unfold content_from_csv. cbn [csv_DictReader with_network]. replay.
Qed.

Lemma replays_validate_filepath (path : string) :
  replays P net (validate_filepath P path)
    (validate_filepath (with_network P net) path).
Proof. unfold validate_filepath. replay. Qed.

Lemma replays_generate_page (page_template : string)
    (elems : list (option basestring)) :
  replays P net (generate_page P page_template elems)
    (generate_page (with_network P net) page_template elems).
Proof. unfold generate_page. replay. Qed.

Hint Resolve replays_process_rows replays_content_from_csv
  replays_validate_filepath replays_generate_page : replay_db.

Lemma replays_main (args : arguments) :
  replays P net (main P args) (main (with_network P net) args).
Proof. unfold main. replay. Qed.
End ReplayScript.

(** C8: the run is a function of its inputs.  Two runs from the same files
    and arguments, against networks that answer alike every request the first
    run issues, end alike: same outcome, same files written, same output. *)
Theorem main_deterministic (P : platform)
    (net : nat -> string -> option response) (args : arguments) (w : world) :
  same_answers P net (length (requests_log w))
    (requests_log (snd (main P args w))) ->
  main (with_network P net) args w = main P args w.
Proof. intros Hsame. now apply (replays_main P net args w). Qed.

Lemma main_deterministic_witness :
  main (with_network two_row_platform flaky_network) no_arguments
    (world_with_template "<html>%s</html>")
  = main two_row_platform no_arguments (world_with_template "<html>%s</html>").
Proof.
  apply (main_deterministic two_row_platform flaky_network no_arguments
           (world_with_template "<html>%s</html>")).
  assert (requests_log (snd (main two_row_platform no_arguments
                               (world_with_template "<html>%s</html>")))
          = [twitter_query "https://twitter.com/a/status/1"]) as ->
    by (vm_compute; reflexivity).
  intros i url _ Hlook. destruct i as [|i]; [reflexivity|].
  destruct i; discriminate Hlook.
Defined.

(** * Further properties of the script *)

(** ** Skipped rows *)

(** X1: whichever way the dispatch skips a row (no type, a type that is not
    recognized, an embedded type with no url), it returns None, prints exactly
    one line, which shows the row, and leaves the request log and the files
    alone. *)
Theorem skipped_row_effects (P : platform) (content_dict : row) (w : world) :
  skipped content_dict = true ->
  exists line,
    html_element_from_content P content_dict w = (Ok None, printed line w)
    /\ contains line (str_row P content_dict).
Proof.
  unfold skipped, html_element_from_content.
  destruct (dict_get content_dict CSV_KEY_TYPE) as [[|c t]|].
  - intros _. exists (no_type_line P content_dict).
    split; [reflexivity | unfold no_type_line; find_part].
  - destruct (bool_decide (String c t ∈ CONTENT_TYPES)); simpl.
    + destruct (bool_decide (String c t ∈ EMBEDDED_CONTENT_TYPES)); simpl;
        [|discriminate].
      destruct (dict_get content_dict CSV_KEY_URL) as [[|d u]|]; simpl;
        try discriminate; intros _; exists (no_url_line P content_dict);
        (split; [reflexivity | unfold no_url_line; find_part]).
    + intros _. exists (unrecognized_type_line P (String c t) content_dict).
      split; [reflexivity | unfold unrecognized_type_line; find_part].
  - intros _. exists (no_type_line P content_dict).
    split; [reflexivity | unfold no_type_line; find_part].
Qed.

Lemma skipped_row_effects_witness :
  exists line,
    html_element_from_content answering_platform foo_row empty_world
    = (Ok None, printed line empty_world)
    /\ contains line (str_row answering_platform foo_row).
Proof.
  apply (skipped_row_effects answering_platform foo_row empty_world).
  reflexivity.
Defined.

(** ** The fragments the dispatch produces *)

(** X2: every fragment the dispatch produces is the container whose class is
    the type the row declares, and that type is one of the three content
    types; the fragment is a byte string or unicode text as its body is. *)
Theorem fragment_is_container_of_row_type (P : platform) (content_dict : row)
    (w : world) (elem : basestring) :
  fst (html_element_from_content P content_dict w) = Ok (Some elem) ->
  exists content_type body,
    dict_get content_dict CSV_KEY_TYPE = Some content_type
    /\ content_type ∈ CONTENT_TYPES
    /\ elem = container_text content_type body.
Proof.
  intros Helem.
  destruct (dict_get content_dict CSV_KEY_TYPE) as [[|c t]|] eqn:Htype;
    try (unfold html_element_from_content in Helem; rewrite Htype in Helem;
         discriminate).
  destruct (decide (String c t ∈ CONTENT_TYPES)) as [Hin|Hout].
  - exists (String c t). pose proof Hin as Hcases.
    apply content_type_cases in Hcases as [[s Hs]|Hweb].
    + rewrite Hs in *.
      destruct (dict_get content_dict CSV_KEY_URL) as [[|d u]|] eqn:Hurl.
      * unfold html_element_from_content in Helem. rewrite Htype, Hurl in Helem.
        destruct s; discriminate.
      * rewrite (embedded_row_run P s content_dict d u w Htype Hurl) in Helem.
        destruct (fetcher P s (String d u) w) as [[v|e] w']; [|discriminate].
        simpl in Helem. injection Helem as <-.
        exists (shown_embed P v). auto.
      * unfold html_element_from_content in Helem. rewrite Htype, Hurl in Helem.
        destruct s; discriminate.
    + rewrite Hweb in *. rewrite (website_row_run P _ w Htype) in Helem.
      simpl in Helem. injection Helem as <-.
      match goal with
      | |- context [Bytes (container _ ?body)] => exists (Bytes body)
      end.
      auto.
  - unfold html_element_from_content in Helem. rewrite Htype in Helem.
    rewrite (bool_decide_eq_false_2 _ Hout) in Helem. discriminate.
Qed.

Lemma fragment_is_container_of_row_type_witness :
  exists content_type body,
    dict_get website_row CSV_KEY_TYPE = Some content_type
    /\ content_type ∈ CONTENT_TYPES
    /\ Bytes (container "website" (website_block "Great!" "http://a.com"))
       = container_text content_type body.
Proof.
  apply (fragment_is_container_of_row_type failing_platform website_row empty_world).
  reflexivity.
Defined.

(** X3: called with a type other than twitter and instagram, the builder for
    embedded content raises ValueError with a message that names the type,
    before any request: the world is as it was. *)
Theorem embedded_builder_rejects_other_types (P : platform)
    (url content_type : string) (w : world) :
  content_type <> CONTENT_TYPE_TWITTER ->
  content_type <> CONTENT_TYPE_INSTAGRAM ->
  html_element_from_embedded_content P url content_type w
  = (Raise (ValueError (unexpected_type_message content_type)), w)
  /\ contains (unexpected_type_message content_type) content_type.
Proof.
  intros Htw Hin. apply String.eqb_neq in Htw, Hin.
  unfold html_element_from_embedded_content. rewrite Htw, Hin.
  split; [reflexivity | unfold unexpected_type_message; find_part].
Qed.

Lemma embedded_builder_rejects_other_types_witness :
  fst (html_element_from_embedded_content answering_platform "http://a.com"
         "website" empty_world)
  = Raise (ValueError (unexpected_type_message "website")).
Proof.
  pose proof (embedded_builder_rejects_other_types answering_platform
                "http://a.com" "website" empty_world) as [Hrun _];
    [discriminate | discriminate |].
  now rewrite Hrun.
Defined.

(** X4: an embedded row with a url, whose endpoint answers 200 with a JSON
    object that holds a text under html, gets the container of its type
    around that text, as unicode text; one request was issued, nothing was
    printed. *)
Theorem embedded_row_fragment (P : platform) (s : service) (content_dict : row)
    (url : string) (html : ustring) (w : world) (r : response)
    (items : list (ustring * decoded)) :
  dict_get content_dict CSV_KEY_TYPE = Some (content_type_of s) ->
  dict_get content_dict CSV_KEY_URL = Some url ->
  url <> EmptyString ->
  requests_get P (length (requests_log w)) (query s url) = Some r ->
  status_code r = 200 ->
  json_loads P (content r) = Some (DDict items) ->
  assoc (to_unicode "html") items = Some (DUnicode html) ->
  html_element_from_content P content_dict w
  = (Ok (Some (Unicode (ucontainer (content_type_of s) html))),
     requested (query s url) w).
Proof.
  intros Htype Hurl Hne Hget H200 Hjson Hitem. destruct url as [|c u]; [congruence|].
  rewrite (embedded_row_run P s content_dict c u w Htype Hurl), fetcher_run, Hget.
  rewrite H200. cbn match. unfold decoded_item. rewrite Hjson. unfold getitem.
  now rewrite Hitem.
Qed.

Lemma embedded_row_fragment_witness :
  html_element_from_content answering_platform tweet_row empty_world
  = (Ok (Some (Unicode (ucontainer "twitter"
                          (to_unicode "<blockquote>a tweet</blockquote>")))),
     requested (twitter_query "https://twitter.com/a/status/1") empty_world).
Proof.
  apply (embedded_row_fragment answering_platform Twitter tweet_row
           "https://twitter.com/a/status/1"
           (to_unicode "<blockquote>a tweet</blockquote>")
           empty_world ok_response
           [(to_unicode "url", DUnicode (to_unicode "https://twitter.com/a/status/1"));
            (to_unicode "html",
             DUnicode (to_unicode "<blockquote>a tweet</blockquote>"))]);
    try reflexivity.
  discriminate.
Defined.

(** ** The requests *)

Lemma service_of_content_type (s : service) :
  service_of (content_type_of s) = Some s.
Proof. destruct s; reflexivity. Qed.

Lemma fetcher_log (P : platform) (s : service) (url : string) (w : world) :
  requests_log (snd (fetcher P s url w)) = requests_log w ++ [query s url].
Proof.
  rewrite fetcher_run. destruct (requests_get P _ _) as [r|]; [|reflexivity].
  destruct (status_code r =? 200); reflexivity.
Qed.

Lemma html_element_from_content_log (P : platform) (content_dict : row)
    (w : world) :
  requests_log (snd (html_element_from_content P content_dict w))
  = requests_log w ++ request_of content_dict.
Proof.
  unfold request_of.
  destruct (dict_get content_dict CSV_KEY_TYPE) as [[|c t]|] eqn:Htype;
    try (unfold html_element_from_content; rewrite Htype; simpl;
         now rewrite app_nil_r).
  destruct (decide (String c t ∈ CONTENT_TYPES)) as [Hin|Hout].
  - apply content_type_cases in Hin as [[s Hs]|Hweb].
    + rewrite Hs in *. rewrite service_of_content_type.
      destruct (dict_get content_dict CSV_KEY_URL) as [[|d u]|] eqn:Hurl.
      * unfold html_element_from_content. rewrite Htype, Hurl.
        destruct s; simpl; now rewrite app_nil_r.
      * rewrite (embedded_row_run P s content_dict d u w Htype Hurl).
        rewrite <- (fetcher_log P s (String d u) w).
        now destruct (fetcher P s (String d u) w) as [[v|e] w'].
      * unfold html_element_from_content. rewrite Htype, Hurl.
        destruct s; simpl; now rewrite app_nil_r.
    + rewrite Hweb in *. rewrite (website_row_run P _ w Htype). simpl.
      now rewrite app_nil_r.
  - unfold html_element_from_content. rewrite Htype.
    rewrite (bool_decide_eq_false_2 _ Hout). simpl.
    assert (service_of (String c t) = None) as ->.
    { unfold service_of.
      destruct (String.eqb_spec (String c t) CONTENT_TYPE_TWITTER) as [E|_].
      { exfalso. apply Hout. rewrite E. apply elem_of_cons. now left. }
      destruct (String.eqb_spec (String c t) CONTENT_TYPE_INSTAGRAM) as [E|_];
        [|reflexivity].
      exfalso. apply Hout. rewrite E. apply elem_of_cons. right.
      apply elem_of_cons. now left. }
    now rewrite app_nil_r.
Qed.

(** X5: a row issues one request, to the endpoint of its type and for its
    url, when it is an embedded row with a url, and no request otherwise;
    this holds however the request and the row end. *)
Theorem row_requests (P : platform) (content_dict : row) (w : world) :
  requests_log (snd (html_element_from_content P content_dict w))
  = requests_log w ++ request_of content_dict.
Proof. apply html_element_from_content_log. Qed.

Lemma hex_digit_safe (n : N) : occurs (hex_digit n) always_safe = true.
Proof.
  unfold hex_digit. destruct (N.to_nat n) as [|k]; [reflexivity|].
  do 15 (destruct k as [|k]; [reflexivity|]). reflexivity.
Qed.

Lemma all_chars_append (p : ascii -> bool) (a b : string) :
  all_chars p (a +:+ b) = all_chars p a && all_chars p b.
Proof.
  induction a as [|c a IH]; [reflexivity|].
  change (String c a +:+ b) with (String c (a +:+ b)).
  cbn [all_chars]. now rewrite IH, andb_assoc.
Qed.

Lemma quote_char_chars (c : ascii) : all_chars quoted_char (quote_char c) = true.
Proof.
  unfold quote_char. destruct (occurs c always_safe || Ascii.eqb c "/") eqn:Hsafe.
  - cbn [all_chars]. unfold quoted_char. now rewrite Hsafe.
  - cbn [all_chars]. unfold quoted_char at 2 3. rewrite !hex_digit_safe.
    reflexivity.
Qed.

Lemma urllib_quote_chars (s : string) : all_chars quoted_char (urllib_quote s) = true.
Proof.
  induction s as [|c s IH]; [reflexivity|].
  cbn [urllib_quote]. now rewrite all_chars_append, quote_char_chars, IH.
Qed.

Lemma urllib_quote_safe (s : string) :
  all_chars safe_char s = true -> urllib_quote s = s.
Proof.
  induction s as [|c s IH]; [reflexivity|]. cbn [all_chars urllib_quote].
  intros Hsafe. apply andb_true_iff in Hsafe as [Hc Hs].
  unfold quote_char. unfold safe_char in Hc. rewrite Hc, (IH Hs). reflexivity.
Qed.

(** X6: the Twitter fetcher requests the endpoint followed by the content url
    percent-encoded: what follows the endpoint holds only letters, digits,
    the characters _ . - / and percent signs, and it is the url itself when
    the url holds nothing to encode.  The Instagram fetcher inserts the url as
    it is. *)
Theorem fetcher_request_encoding (P : platform) (url : string) (w : world) :
  (exists encoded,
      requests_log (snd (get_twitter_embed_code P url w))
      = requests_log w ++ ["https://publish.twitter.com/oembed?url=" +:+ encoded]
      /\ all_chars quoted_char encoded = true
      /\ (all_chars safe_char url = true -> encoded = url))
  /\ requests_log (snd (get_instagram_embed_code P url w))
     = requests_log w ++ ["https://api.instagram.com/oembed/?url=" +:+ url].
Proof.
  split.
  - exists (urllib_quote url). split; [exact (fetcher_log P Twitter url w)|].
    split; [apply urllib_quote_chars | apply urllib_quote_safe].
  - exact (fetcher_log P Instagram url w).
Qed.

(** ** Fetches that go wrong *)

(** X7: nothing but a status other than 200 is handled in a fetch.  For an
    embedded row with a url, the builder of the row ends in the exception of
    the fetch: that of requests when the request itself fails, and on status
    200 the decode error when the body is no JSON, KeyError html when the
    JSON object has no such key, TypeError when the JSON is no object. *)
Theorem unhandled_fetch_errors (P : platform) (s : service) (content_dict : row)
    (url : string) (w : world) :
  dict_get content_dict CSV_KEY_TYPE = Some (content_type_of s) ->
  dict_get content_dict CSV_KEY_URL = Some url ->
  url <> EmptyString ->
  (requests_get P (length (requests_log w)) (query s url) = None ->
   fst (html_element_from_content P content_dict w) = Raise RequestException)
  /\ (forall r,
        requests_get P (length (requests_log w)) (query s url) = Some r ->
        status_code r = 200 ->
        (json_loads P (content r) = None ->
         fst (html_element_from_content P content_dict w) = Raise JSONDecodeError)
        /\ (forall items,
              json_loads P (content r) = Some (DDict items) ->
              assoc (to_unicode "html") items = None ->
              fst (html_element_from_content P content_dict w)
              = Raise (KeyError "html"))
        /\ (forall d,
              json_loads P (content r) = Some d ->
              is_object d = false ->
              fst (html_element_from_content P content_dict w) = Raise TypeError)).
Proof.
  intros Htype Hurl Hne. destruct url as [|c u]; [congruence|].
  rewrite (embedded_row_run P s content_dict c u w Htype Hurl), fetcher_run.
  split.
  - intros ->. reflexivity.
  - intros r -> ->. cbn match. unfold decoded_item. repeat split.
    + intros ->. reflexivity.
    + intros items -> Hitem. unfold getitem. now rewrite Hitem.
    + intros d -> Hobj. destruct d; try reflexivity. discriminate.
Qed.

Lemma unhandled_fetch_errors_witness :
  fst (html_element_from_content unreachable_platform tweet_row empty_world)
  = Raise RequestException
  /\ fst (html_element_from_content garbled_platform tweet_row empty_world)
     = Raise JSONDecodeError
  /\ fst (html_element_from_content keyless_platform tweet_row empty_world)
     = Raise (KeyError "html")
  /\ fst (html_element_from_content list_platform tweet_row empty_world)
     = Raise TypeError.
Proof.
  split; [|split; [|split]].
  - apply (proj1 (unhandled_fetch_errors unreachable_platform Twitter tweet_row
                    "https://twitter.com/a/status/1" empty_world
                    eq_refl eq_refl ltac:(discriminate))).
    reflexivity.
  - apply (proj1 (proj2 (unhandled_fetch_errors garbled_platform Twitter tweet_row
                           "https://twitter.com/a/status/1" empty_world
                           eq_refl eq_refl ltac:(discriminate))
                    ok_response eq_refl eq_refl)).
    reflexivity.
  - apply (proj1 (proj2 (proj2 (unhandled_fetch_errors keyless_platform Twitter
                                  tweet_row "https://twitter.com/a/status/1"
                                  empty_world eq_refl eq_refl ltac:(discriminate))
                           ok_response eq_refl eq_refl))
             [(to_unicode "url",
               DUnicode (to_unicode "https://twitter.com/a/status/1"))]);
      reflexivity.
  - apply (proj2 (proj2 (proj2 (unhandled_fetch_errors list_platform Twitter
                                  tweet_row "https://twitter.com/a/status/1"
                                  empty_world eq_refl eq_refl ltac:(discriminate))
                           ok_response eq_refl eq_refl))
             (DList []));
      reflexivity.
Defined.

(** ** The run of [main] *)

Lemma bind_raise {A B} (c : M A) (k : A -> M B) (w w' : world) (e : exn) :
  c w = (Raise e, w') -> bind c k w = (Raise e, w').
Proof. intros Hc. unfold bind. now rewrite Hc. Qed.

Lemma resolve_run (P : platform) (flag : option string) (note default line : string)
    (w : world) :
  py_format (str_compound P) note [VStr default] = Ok line ->
  exists w',
    match flag with
    | Some (String _ _ as given) => ret given
    | _ => line <- format P note [VStr default] ;; print line ;; ret default
    end w = (Ok (resolved flag default), w')
    /\ same_files_and_log w w'.
Proof.
  intros Hline. unfold bind, format, lift, print, ret.
  destruct flag as [[|c g]|]; rewrite ?Hline; eexists; split;
    try reflexivity; split; reflexivity.
Qed.

Lemma validate_filepath_missing (P : platform) (path : string) (w : world) :
  files w !! path = None ->
  validate_filepath P path w
  = (Raise (SystemExit 1), printed (not_a_file_line path) w).
Proof.
  intros Hfile. unfold validate_filepath, bind, isfile. rewrite Hfile.
  rewrite bool_decide_eq_false_2; [reflexivity|].
  intros [text Htext]. discriminate.
Qed.

Lemma main_unfold (P : platform) (args : arguments) :
  main P args
  = (content_csv_filepath <-
       match content_csv args with
       | Some (String _ _ as given) => ret given
       | _ =>
           line <- format P "No content csv filepath provided, using default: %s"
                     [VStr DEFAULT_CONTENT_CSV_PATH] ;;
           print line ;;
           ret DEFAULT_CONTENT_CSV_PATH
       end ;;
     validate_filepath P content_csv_filepath ;;
     page_template_filepath <-
       match page_template args with
       | Some (String _ _ as given) => ret given
       | _ =>
           line <- format P "No page template filepath provided, using default: %s"
                     [VStr DEFAULT_PAGE_TEMPLATE_PATH] ;;
           print line ;;
           ret DEFAULT_PAGE_TEMPLATE_PATH
       end ;;
     validate_filepath P page_template_filepath ;;
     paths <-
       match outfile args with
       | Some (String _ _ as given) => ret (given, None)
       | _ =>
           line <- format P "No outfile filepath provided, using default: %s"
                     [VStr DEFAULT_OUTFILE_PATH] ;;
           print line ;;
           ret (page_template_filepath, Some DEFAULT_OUTFILE_PATH)
       end ;;
     main_from_paths P content_csv_filepath (fst paths) (snd paths)).
Proof. reflexivity. Qed.

(** The run up to the line of dashes: it exits with code 1 on the first input
    path that is no file, and goes on with the settled paths otherwise; it
    has issued no request and written no file by then. *)
Lemma main_paths (P : platform) (args : arguments) (w : world) :
  let csv_path := resolved (content_csv args) DEFAULT_CONTENT_CSV_PATH in
  let template_path := resolved (page_template args) DEFAULT_PAGE_TEMPLATE_PATH in
  exists w',
    same_files_and_log w w'
    /\ main P args w
       = match files w !! csv_path, files w !! template_path with
         | Some _, Some _ =>
             main_from_paths P csv_path (template_path_used args)
               (outfile_path_used args) w'
         | _, _ => (Raise (SystemExit 1), w')
         end.
Proof.
  intros csv_path template_path. rewrite main_unfold.
  destruct (resolve_run P (content_csv args)
              "No content csv filepath provided, using default: %s"
              DEFAULT_CONTENT_CSV_PATH _ w eq_refl) as (w1 & H1 & F1 & L1).
  rewrite (bind_ok _ _ _ _ _ H1). fold csv_path.
  destruct (files w !! csv_path) as [text|] eqn:Hcsv.
  2:{ rewrite <- F1 in Hcsv.
      rewrite (bind_raise _ _ _ _ _ (validate_filepath_missing P _ w1 Hcsv)).
      eexists. split; [|reflexivity]. split; simpl; assumption. }
  rewrite <- F1 in Hcsv.
  rewrite (bind_ok _ _ _ _ _ (validate_filepath_ok P _ text w1 Hcsv)).
  destruct (resolve_run P (page_template args)
              "No page template filepath provided, using default: %s"
              DEFAULT_PAGE_TEMPLATE_PATH _ w1 eq_refl) as (w2 & H2 & F2 & L2).
  rewrite (bind_ok _ _ _ _ _ H2). fold template_path.
  destruct (files w !! template_path) as [ttext|] eqn:Htemplate.
  2:{ rewrite <- F1, <- F2 in Htemplate.
      rewrite (bind_raise _ _ _ _ _ (validate_filepath_missing P _ w2 Htemplate)).
      eexists. split; [|reflexivity]. split; simpl; congruence. }
  rewrite <- F1, <- F2 in Htemplate.
  rewrite (bind_ok _ _ _ _ _ (validate_filepath_ok P _ ttext w2 Htemplate)).
  unfold template_path_used, outfile_path_used.
  destruct (outfile args) as [[|c g]|].
  - erewrite bind_ok; [|reflexivity]. eexists. split; [|reflexivity].
    split; simpl; congruence.
  - exists w2. split; [split; congruence | reflexivity].
  - erewrite bind_ok; [|reflexivity]. eexists. split; [|reflexivity].
    split; simpl; congruence.
Qed.

(** X8: when the content table or the page template is no file, the run
    exits with code 1 before anything else happens: no request is issued and
    no file is written. *)
Theorem missing_input_file_exits (P : platform) (args : arguments) (w : world) :
  files w !! resolved (content_csv args) DEFAULT_CONTENT_CSV_PATH = None
  \/ files w !! resolved (page_template args) DEFAULT_PAGE_TEMPLATE_PATH = None ->
  fst (main P args w) = Raise (SystemExit 1)
  /\ same_files_and_log w (snd (main P args w)).
Proof.
  intros Hmissing. destruct (main_paths P args w) as (w' & Hsame & Hrun).
  cbv zeta in Hrun. rewrite Hrun.
  destruct (files w !! resolved (content_csv args) DEFAULT_CONTENT_CSV_PATH);
    [|now split].
  destruct (files w !! resolved (page_template args) DEFAULT_PAGE_TEMPLATE_PATH);
    [|now split].
  destruct Hmissing; discriminate.
Qed.

Lemma missing_input_file_exits_witness :
  fst (main answering_platform no_arguments empty_world) = Raise (SystemExit 1)
  /\ same_files_and_log empty_world (snd (main answering_platform no_arguments
                                            empty_world)).
Proof.
  apply (missing_input_file_exits answering_platform no_arguments empty_world).
  left. reflexivity.
Defined.

Lemma outcome_bind {A B} (Q : result B -> world -> Prop) (F : gmap string string)
    (c : M A) (k : A -> M B) (w : world) :
  keeps_files c ->
  files w = F ->
  (forall e w', files w' = F -> Q (Raise e) w') ->
  (forall a w', files w' = F -> Q (fst (k a w')) (snd (k a w'))) ->
  Q (fst (bind c k w)) (snd (bind c k w)).
Proof.
  intros Hkeep HF Hraise Hk. unfold bind. specialize (Hkeep w).
  destruct (c w) as [[a|e] w']; simpl in Hkeep.
  - exact (Hk a w' (eq_trans Hkeep HF)).
  - exact (Hraise e w' (eq_trans Hkeep HF)).
Qed.

Lemma encode_raises (u : ustring) (e : exn) :
  encode u = Raise e -> e = UnicodeEncodeError.
Proof.
  induction u as [|n u IH]; [discriminate|]. cbn [encode].
  destruct (n <? 128)%N; [|now intros [= <-]].
  destruct (encode u); [discriminate|]. intros [= <-]. now apply IH.
Qed.

(** The two steps of writing the page: afterwards the file holds the page,
    or it is empty and the encoding of the page has raised. *)
Lemma write_file_outcome (path : string) (page : basestring) (w : world) :
  (exists text, write_file path page w = (Ok tt, written path text w))
  \/ write_file path page w
     = (Raise UnicodeEncodeError, written path EmptyString w).
Proof.
  unfold write_file, bind, open_for_writing.
  assert (forall text, written path text (written path EmptyString w)
                       = written path text w) as Hover.
  { intros text. unfold written. cbn [stdout requests_log files].
    now rewrite insert_insert_eq. }
  destruct page as [s|u]; cbn [file_write].
  - left. exists s. now rewrite Hover.
  - destruct (encode u) as [s|e] eqn:Hencode.
    + left. exists s. now rewrite Hover.
    + right. now rewrite (encode_raises u e Hencode).
Qed.

(** From the line of dashes on, a run either returns, having written the
    page to the output path and printed its last line, or raises, having
    written nothing or, when the page could not be encoded, having left the
    output file empty. *)
Lemma main_from_paths_outcome (P : platform) (csv_path template_path : string)
    (out : option string) (w : world) :
  match fst (main_from_paths P csv_path template_path out w) with
  | Ok _ =>
      exists o page,
        out = Some o
        /\ files (snd (main_from_paths P csv_path template_path out w))
           = <[o := page]> (files w)
        /\ last (stdout (snd (main_from_paths P csv_path template_path out w)))
           = Some ("Succesfully wrote generated page to " +:+ o)
  | Raise e =>
      files (snd (main_from_paths P csv_path template_path out w)) = files w
      \/ (exists o,
             out = Some o /\ e = UnicodeEncodeError
             /\ files (snd (main_from_paths P csv_path template_path out w))
                = <[o := EmptyString]> (files w))
  end.
Proof.
  pose (Q := fun (r : result unit) (w' : world) =>
               match r with
               | Ok _ =>
                   exists o page,
                     out = Some o /\ files w' = <[o := page]> (files w)
                     /\ last (stdout w')
                        = Some ("Succesfully wrote generated page to " +:+ o)
               | Raise e =>
                   files w' = files w
                   \/ (exists o,
                          out = Some o /\ e = UnicodeEncodeError
                          /\ files w' = <[o := EmptyString]> (files w))
               end).
  change (Q (fst (main_from_paths P csv_path template_path out w))
            (snd (main_from_paths P csv_path template_path out w))).
  assert (forall e w', files w' = files w -> Q (Raise e) w') as Hraise
    by (intros e w' Hw'; left; exact Hw').
  unfold main_from_paths.
  apply (outcome_bind Q (files w)); [walk files_db | reflexivity | exact Hraise |].
  intros _ w1 F1.
  apply (outcome_bind Q (files w)); [walk files_db | exact F1 | exact Hraise |].
  intros content w2 F2.
  apply (outcome_bind Q (files w)); [walk files_db | exact F2 | exact Hraise |].
  intros line w3 F3.
  apply (outcome_bind Q (files w)); [walk files_db | exact F3 | exact Hraise |].
  intros _ w4 F4.
  apply (outcome_bind Q (files w)); [walk files_db | exact F4 | exact Hraise |].
  intros elems w5 F5.
  apply (outcome_bind Q (files w)); [walk files_db | exact F5 | exact Hraise |].
  intros template w6 F6.
  apply (outcome_bind Q (files w)); [walk files_db | exact F6 | exact Hraise |].
  intros page w7 F7.
  destruct out as [o|]; [|left; exact F7].
  destruct (write_file_outcome o page w7) as [[text Hwrite]|Hwrite].
  - rewrite (bind_ok _ _ _ _ _ Hwrite).
    exists o, text. split; [reflexivity|]. split.
    + simpl. now rewrite F7.
    + unfold bind, format, lift, print. simpl.
      rewrite last_snoc, append_empty. reflexivity.
  - rewrite (bind_raise _ _ _ _ _ Hwrite).
    right. exists o. split; [reflexivity|]. split; [reflexivity|].
    simpl. now rewrite F7.
Qed.

(** X9: what a run leaves of the output file.  Either it returns, and then
    the output flag was not given, exactly the default output file was
    written and the last line printed reports it; or it raises, and then
    either no file was written, or the exception is UnicodeEncodeError, raised
    when the page is written after the default output file was opened, and
    exactly that file was written: it is left empty. *)
Theorem run_writes_page_or_nothing (P : platform) (args : arguments) (w : world) :
  match fst (main P args w) with
  | Ok _ =>
      truthy (outfile args) = false
      /\ (exists page,
             files (snd (main P args w))
             = <[DEFAULT_OUTFILE_PATH := page]> (files w))
      /\ last (stdout (snd (main P args w)))
         = Some "Succesfully wrote generated page to index.html"
  | Raise e =>
      files (snd (main P args w)) = files w
      \/ (e = UnicodeEncodeError
          /\ truthy (outfile args) = false
          /\ files (snd (main P args w))
             = <[DEFAULT_OUTFILE_PATH := EmptyString]> (files w))
  end.
Proof.
  destruct (main_paths P args w) as (w' & [Hfiles _] & Hrun).
  cbv zeta in Hrun. rewrite Hrun.
  destruct (files w !! resolved (content_csv args) DEFAULT_CONTENT_CSV_PATH);
    [|left; exact Hfiles].
  destruct (files w !! resolved (page_template args) DEFAULT_PAGE_TEMPLATE_PATH);
    [|left; exact Hfiles].
  pose proof (main_from_paths_outcome P
                (resolved (content_csv args) DEFAULT_CONTENT_CSV_PATH)
                (template_path_used args) (outfile_path_used args) w') as Hout.
  destruct (fst (main_from_paths P _ _ _ w')).
  - destruct Hout as (o & page & Ho & Hwritten & Hlast).
    unfold outfile_path_used in Ho.
    destruct (outfile args) as [[|c g]|]; try discriminate;
      injection Ho as <-; (split; [reflexivity|]);
      (split; [exists page; now rewrite Hwritten, Hfiles | exact Hlast]).
  - destruct Hout as [Hout|(o & Ho & He & Hout)].
    + left. now rewrite Hout.
    + right. split; [exact He|]. unfold outfile_path_used in Ho.
      destruct (outfile args) as [[|c g]|]; try discriminate;
        injection Ho as <-; (split; [reflexivity|]); now rewrite Hout, Hfiles.
Qed.

(** ** The run, step by step *)

Lemma generate_page_world (P : platform) (template : string)
    (elems : list (option basestring)) (w : world) :
  snd (generate_page P template elems w) = w.
Proof.
  unfold generate_page, bind, lift, format_text.
  destruct (escape_all elems) as [escaped|]; [|reflexivity].
  destruct (join_text _ escaped); [|reflexivity].
  now destruct (py_format_text _ _ _).
Qed.

Lemma write_file_bytes (path text : string) (w : world) :
  write_file path (Bytes text) w = (Ok tt, written path text w).
Proof.
  unfold write_file, bind, open_for_writing, file_write, written.
  cbn [stdout requests_log files]. now rewrite insert_insert_eq.
Qed.

Lemma main_from_paths_run (P : platform) (csv_path template_path : string)
    (out : option string) (w : world) (text : string) (rows : list row) :
  files w !! csv_path = Some text ->
  csv_DictReader P text = Some rows ->
  main_from_paths P csv_path template_path out w
  = match process_rows P (length rows) 0 rows []
            (printed (loaded_line rows) (printed (repeat_char "-" 80) w)) with
    | (Raise e, w2) => (Raise e, w2)
    | (Ok elems, w2) =>
        match files w2 !! template_path with
        | None => (Raise (IOError template_path), w2)
        | Some template =>
            match fst (generate_page P template elems w2) with
            | Raise e => (Raise e, w2)
            | Ok page =>
                match out with
                | None => (Raise (UnboundLocalError "outfile_filepath"), w2)
                | Some o =>
                    match write_file o page w2 with
                    | (Ok _, w3) =>
                        (Ok tt,
                         printed ("Succesfully wrote generated page to " +:+ o)
                           w3)
                    | (Raise e, w3) => (Raise e, w3)
                    end
                end
            end
        end
    end.
Proof.
  intros Hfile Hcsv. unfold main_from_paths.
  erewrite bind_ok; [|reflexivity].
  erewrite bind_ok; [|now apply (content_from_csv_ok P _ text rows)].
  erewrite bind_ok; [|reflexivity].
  erewrite bind_ok; [|reflexivity].
  unfold bind at 1. unfold loaded_line.
  destruct (process_rows P (length rows) 0 rows [] _) as [[elems|e] w2];
    [|reflexivity].
  unfold bind at 1, read_file.
  destruct (files w2 !! template_path) as [template|]; [|reflexivity].
  unfold bind at 1.
  pose proof (generate_page_world P template elems w2) as Hworld.
  destruct (generate_page P template elems w2) as [[page|e] w3];
    simpl in Hworld; subst w3; [|reflexivity].
  destruct out as [o|]; [|reflexivity].
  unfold bind at 1. cbn [fst].
  destruct (write_file o page w2) as [[[]|e] w3]; [|reflexivity].
  unfold bind, format, lift, print. simpl.
  now rewrite append_empty.
Qed.

Lemma row_cases (content_dict : row) :
  skipped content_dict = true
  \/ dict_get content_dict CSV_KEY_TYPE = Some CONTENT_TYPE_WEBSITE
  \/ (exists s c u,
         dict_get content_dict CSV_KEY_TYPE = Some (content_type_of s)
         /\ dict_get content_dict CSV_KEY_URL = Some (String c u)).
Proof.
  unfold skipped.
  destruct (dict_get content_dict CSV_KEY_TYPE) as [[|c t]|]; auto.
  destruct (decide (String c t ∈ CONTENT_TYPES)) as [Hin|Hout].
  - rewrite (bool_decide_eq_true_2 _ Hin). simpl.
    apply content_type_cases in Hin as [[s Hs]|Hweb].
    + rewrite Hs.
      destruct (dict_get content_dict CSV_KEY_URL) as [[|d u]|].
      * left. now destruct s.
      * right. right. now exists s, d, u.
      * left. now destruct s.
    + right. left. now rewrite Hweb.
  - left. now rewrite (bool_decide_eq_false_2 _ Hout).
Qed.

Lemma process_rows_cons (P : platform) (total i : nat) (content_dict : row)
    (rest : list row) (acc : list (option basestring)) (w : world) :
  process_rows P total i (content_dict :: rest) acc w
  = match html_element_from_content P content_dict
            (printed (processing_line i total) w) with
    | (Ok elem, w1) => process_rows P total (S i) rest (acc ++ [elem]) w1
    | (Raise e, w1) => (Raise e, w1)
    end.
Proof.
  cbn [process_rows]. erewrite bind_ok; [|reflexivity].
  erewrite bind_ok; [|reflexivity]. reflexivity.
Qed.

Lemma process_rows_log (P : platform) (total : nat) (rows : list row) :
  forall (i : nat) (acc : list (option basestring)) (w : world),
  exists more,
    requests_log (snd (process_rows P total i rows acc w)) = requests_log w ++ more
    /\ more `prefix_of` requests_of rows
    /\ (forall elems, fst (process_rows P total i rows acc w) = Ok elems ->
        more = requests_of rows).
Proof.
  induction rows as [|content_dict rest IH]; intros i acc w.
  - exists []. cbn. rewrite app_nil_r. split; [reflexivity|].
    split; [apply prefix_nil | reflexivity].
  - rewrite process_rows_cons.
    pose proof (html_element_from_content_log P content_dict
                  (printed (processing_line i total) w)) as Hlog.
    destruct (html_element_from_content P content_dict _) as [[elem|e] w1];
      simpl in Hlog.
    + destruct (IH (S i) (acc ++ [elem]) w1) as (more & Hmore & Hprefix & Hall).
      exists (request_of content_dict ++ more). split; [|split].
      * rewrite Hmore, Hlog. now rewrite app_assoc.
      * unfold requests_of. cbn. now apply prefix_app.
      * intros elems Helems. unfold requests_of. cbn.
        now rewrite (Hall elems Helems).
    + exists (request_of content_dict). split; [exact Hlog|]. split.
      * unfold requests_of. cbn. now apply prefix_app_r.
      * discriminate.
Qed.

(** X10: the requests of a run are those the rows of the table call for, in
    the order of the rows and each once: all of them when the run returns, the
    first few when it raises on the way. *)
Theorem run_requests (P : platform) (args : arguments) (w : world)
    (text : string) (rows : list row) :
  files w !! resolved (content_csv args) DEFAULT_CONTENT_CSV_PATH = Some text ->
  csv_DictReader P text = Some rows ->
  exists more,
    requests_log (snd (main P args w)) = requests_log w ++ more
    /\ more `prefix_of` requests_of rows
    /\ (fst (main P args w) = Ok tt -> more = requests_of rows).
Proof.
  intros Hfile Hcsv. destruct (main_paths P args w) as (w' & [Hfiles Hlog] & Hrun).
  cbv zeta in Hrun. rewrite Hrun, Hfile. clear Hrun.
  destruct (files w !! resolved (page_template args) DEFAULT_PAGE_TEMPLATE_PATH).
  2:{ exists []. simpl. rewrite app_nil_r.
      split; [exact Hlog|]. split; [apply prefix_nil | discriminate]. }
  rewrite <- Hfiles in Hfile.
  rewrite (main_from_paths_run P _ _ _ w' text rows Hfile Hcsv).
  match goal with |- context [process_rows P ?n 0 rows [] ?v] =>
    destruct (process_rows_log P n rows 0 [] v) as (more & Hmore & Hprefix & Hall);
    destruct (process_rows P n 0 rows [] v) as [[elems|e] w2]
  end; simpl in Hmore; rewrite Hlog in Hmore.
  - specialize (Hall elems eq_refl). exists more.
    destruct (files w2 !! template_path_used args) as [template|];
      [|repeat split; auto].
    destruct (fst (generate_page P template elems w2)) as [b|];
      [|repeat split; auto].
    destruct (outfile_path_used args) as [o|]; [|repeat split; auto].
    destruct (write_file_outcome o b w2) as [[written_text ->]| ->];
      repeat split; auto.
  - exists more. repeat split; auto. discriminate.
Qed.

Lemma run_requests_witness :
  exists more,
    requests_log (snd (main two_row_platform no_arguments
                         (world_with_template "<html>%s</html>")))
    = requests_log (world_with_template "<html>%s</html>") ++ more
    /\ more `prefix_of` requests_of [tweet_row; website_row]
    /\ (fst (main two_row_platform no_arguments
               (world_with_template "<html>%s</html>")) = Ok tt ->
        more = requests_of [tweet_row; website_row]).
Proof.
  apply (run_requests two_row_platform no_arguments
           (world_with_template "<html>%s</html>") "(the content table)"
           [tweet_row; website_row]).
  - vm_compute. reflexivity.
  - reflexivity.
Defined.

(** ** Whole tables *)

Lemma process_rows_fragments (P : platform) (f : row -> basestring) (total : nat)
    (rows : list row) :
  (forall content_dict, content_dict ∈ rows ->
   forall w, fst (html_element_from_content P content_dict w)
             = Ok (Some (f content_dict))) ->
  forall (i : nat) (acc : list (option basestring)) (w : world),
    fst (process_rows P total i rows acc w) = Ok (acc ++ map Some (map f rows)).
Proof.
  induction rows as [|content_dict rest IH]; intros Heach i acc w.
  - cbn. now rewrite app_nil_r.
  - rewrite process_rows_cons.
    pose proof (Heach content_dict ltac:(apply elem_of_cons; now left)
                  (printed (processing_line i total) w)) as Hrow.
    destruct (html_element_from_content P content_dict _) as [[elem|e] w1];
      simpl in Hrow; [|discriminate].
    injection Hrow as ->. rewrite IH.
    + cbn. now rewrite <- app_assoc.
    + intros r Hr. apply Heach. apply elem_of_cons. now right.
Qed.

Lemma write_file_unicode (path : string) (u : ustring) (w : world) :
  write_file path (Unicode u) w
  = match encode u with
    | Ok text => (Ok tt, written path text w)
    | Raise _ => (Raise UnicodeEncodeError, written path EmptyString w)
    end.
Proof.
  unfold write_file, bind, open_for_writing. cbn [file_write].
  destruct (encode u) as [text|e] eqn:Hencode.
  - unfold written. cbn [stdout requests_log files].
    now rewrite insert_insert_eq.
  - now rewrite (encode_raises u e Hencode).
Qed.

(** A table whose rows all get a fragment, with no output flag: the run
    comes to the assembly of the page with these fragments, and to the
    writing of the page when there is one. *)
Lemma main_fragments_run (P : platform) (args : arguments) (w : world)
    (text template : string) (rows : list row) (f : row -> basestring) :
  truthy (outfile args) = false ->
  files w !! resolved (content_csv args) DEFAULT_CONTENT_CSV_PATH = Some text ->
  csv_DictReader P text = Some rows ->
  files w !! resolved (page_template args) DEFAULT_PAGE_TEMPLATE_PATH
  = Some template ->
  (forall content_dict, content_dict ∈ rows ->
   forall w', fst (html_element_from_content P content_dict w')
              = Ok (Some (f content_dict))) ->
  exists w2,
    files w2 = files w
    /\ main P args w
       = match fst (generate_page P template (map Some (map f rows)) w2) with
         | Raise e => (Raise e, w2)
         | Ok page =>
             match write_file DEFAULT_OUTFILE_PATH page w2 with
             | (Ok _, w3) =>
                 (Ok tt,
                  printed ("Succesfully wrote generated page to "
                           +:+ DEFAULT_OUTFILE_PATH) w3)
             | (Raise e, w3) => (Raise e, w3)
             end
         end.
Proof.
  intros Hout Hfile Hcsv Htemplate Heach.
  destruct (main_paths P args w) as (w' & [Hfiles Hlog] & Hrun).
  cbv zeta in Hrun. rewrite Hrun, Hfile, Htemplate. clear Hrun.
  rewrite <- Hfiles in Hfile.
  rewrite (main_from_paths_run P _ _ _ w' text rows Hfile Hcsv).
  assert (template_path_used args
          = resolved (page_template args) DEFAULT_PAGE_TEMPLATE_PATH) as ->.
  { unfold template_path_used. now destruct (outfile args) as [[|c g]|]. }
  assert (outfile_path_used args = Some DEFAULT_OUTFILE_PATH) as ->.
  { unfold outfile_path_used. now destruct (outfile args) as [[|c g]|]. }
  match goal with |- context [process_rows P ?n 0 rows [] ?v] =>
    pose proof (process_rows_fragments P f n rows Heach 0 [] v) as Helems;
    pose proof (keeps_files_process_rows P n rows 0 [] v) as Hkeep;
    destruct (process_rows P n 0 rows [] v) as [[elems|e] w2]
  end; simpl in Helems, Hkeep; [|discriminate].
  injection Helems as ->. rewrite Hkeep, Hfiles, Htemplate.
  exists w2. split; [congruence | reflexivity].
Qed.

(** With byte-string fragments and a template of one placeholder, the run
    returns and writes the page. *)
Lemma main_page (P : platform) (args : arguments) (w : world)
    (text pre post : string) (rows : list row) (f : row -> string) :
  truthy (outfile args) = false ->
  files w !! resolved (content_csv args) DEFAULT_CONTENT_CSV_PATH = Some text ->
  csv_DictReader P text = Some rows ->
  files w !! resolved (page_template args) DEFAULT_PAGE_TEMPLATE_PATH
  = Some (pre +:+ "%s" +:+ post) ->
  occurs percent pre = false ->
  occurs percent post = false ->
  (forall content_dict, content_dict ∈ rows ->
   forall w', fst (html_element_from_content P content_dict w')
              = Ok (Some (Bytes (f content_dict)))) ->
  fst (main P args w) = Ok tt
  /\ files (snd (main P args w))
     = <[DEFAULT_OUTFILE_PATH := page_of pre post (map f rows)]> (files w).
Proof.
  intros Hout Hfile Hcsv Htemplate Hpre Hpost Heach.
  destruct (main_fragments_run P args w text _ rows (fun r => Bytes (f r))
              Hout Hfile Hcsv Htemplate Heach) as (w2 & Hfiles & ->).
  rewrite <- (map_map f Bytes).
  rewrite (generate_page_bytes P pre post (map f rows) w2 Hpre Hpost).
  cbn [fst]. rewrite write_file_bytes.
  split; [reflexivity|]. simpl. now rewrite Hfiles.
Qed.

(** With a unicode fragment among ASCII text, the page is unicode and is
    encoded when it is written. *)
Lemma main_unicode_page_run (P : platform) (args : arguments) (w : world)
    (text pre post : string) (rows : list row) (f : row -> basestring) :
  truthy (outfile args) = false ->
  files w !! resolved (content_csv args) DEFAULT_CONTENT_CSV_PATH = Some text ->
  csv_DictReader P text = Some rows ->
  files w !! resolved (page_template args) DEFAULT_PAGE_TEMPLATE_PATH
  = Some (pre +:+ "%s" +:+ post) ->
  occurs percent pre = false ->
  occurs percent post = false ->
  (forall content_dict, content_dict ∈ rows ->
   forall w', fst (html_element_from_content P content_dict w')
              = Ok (Some (f content_dict))) ->
  all_bytes (map f rows) = None ->
  exists w2,
    files w2 = files w
    /\ main P args w
       = if ascii_fragments (map f rows) && (is_ascii pre && is_ascii post)
         then match encode (upage_of pre post (map f rows)) with
              | Ok page =>
                  (Ok tt,
                   printed ("Succesfully wrote generated page to "
                            +:+ DEFAULT_OUTFILE_PATH)
                     (written DEFAULT_OUTFILE_PATH page w2))
              | Raise _ =>
                  (Raise UnicodeEncodeError,
                   written DEFAULT_OUTFILE_PATH EmptyString w2)
              end
         else (Raise UnicodeDecodeError, w2).
Proof.
  intros Hout Hfile Hcsv Htemplate Hpre Hpost Heach Hsome.
  destruct (main_fragments_run P args w text _ rows f
              Hout Hfile Hcsv Htemplate Heach) as (w2 & Hfiles & ->).
  exists w2. split; [exact Hfiles|].
  rewrite (generate_page_unicode P pre post (map f rows) w2 Hpre Hpost Hsome).
  cbn [fst].
  destruct (ascii_fragments (map f rows) && (is_ascii pre && is_ascii post));
    [|reflexivity].
  rewrite write_file_unicode. now destruct (encode _).
Qed.



Lemma request_of_embedded (s : service) (content_dict : row) (c : ascii)
    (u : string) :
  dict_get content_dict CSV_KEY_TYPE = Some (content_type_of s) ->
  dict_get content_dict CSV_KEY_URL = Some (String c u) ->
  request_of content_dict = [query s (String c u)].
Proof.
  intros Htype Hurl. unfold request_of.
  now rewrite Htype, service_of_content_type, Hurl.
Qed.

Lemma request_of_website (content_dict : row) :
  dict_get content_dict CSV_KEY_TYPE = Some CONTENT_TYPE_WEBSITE ->
  request_of content_dict = [].
Proof. intros Htype. unfold request_of. now rewrite Htype. Qed.

Lemma request_of_skipped (content_dict : row) :
  skipped content_dict = true -> request_of content_dict = [].
Proof.
  unfold skipped, request_of.
  destruct (dict_get content_dict CSV_KEY_TYPE) as [[|c t]|]; try reflexivity.
  destruct (decide (String c t ∈ CONTENT_TYPES)) as [Hin|Hout].
  - rewrite (bool_decide_eq_true_2 _ Hin). simpl.
    apply content_type_cases in Hin as [[s ->]| ->]; [|reflexivity].
    rewrite service_of_content_type.
    destruct (dict_get content_dict CSV_KEY_URL) as [[|d u]|]; try reflexivity.
    destruct s; discriminate.
  - intros _. unfold service_of.
    destruct (String.eqb_spec (String c t) CONTENT_TYPE_TWITTER) as [E|_].
    { exfalso. apply Hout. rewrite E. apply elem_of_cons. now left. }
    destruct (String.eqb_spec (String c t) CONTENT_TYPE_INSTAGRAM) as [E|_];
      [|reflexivity].
    exfalso. apply Hout. rewrite E. apply elem_of_cons. right.
    apply elem_of_cons. now left.
Qed.

Lemma failing_fetch_fragment (P : platform) (s : service) (content_dict : row)
    (c : ascii) (u : string) (w : world) :
  failing_network P ->
  dict_get content_dict CSV_KEY_TYPE = Some (content_type_of s) ->
  dict_get content_dict CSV_KEY_URL = Some (String c u) ->
  fst (html_element_from_content P content_dict w)
  = Ok (Some (Bytes (container (content_type_of s) "None"))).
Proof.
  intros Hfail Htype Hurl.
  rewrite (embedded_row_run P s content_dict c u w Htype Hurl), fetcher_run.
  destruct (Hfail (length (requests_log w)) (query s (String c u)))
    as (r & -> & Hstatus).
  apply Z.eqb_neq in Hstatus. now rewrite Hstatus.
Qed.

(** X12: when every request is answered with a status other than 200, a
    table with no skipped row still runs to its end: the page is written,
    with each website row as its fragment and each embedded row as the
    container of its type around the text None. *)
Theorem failing_network_page (P : platform) (args : arguments) (w : world)
    (text pre post : string) (rows : list row) :
  failing_network P ->
  truthy (outfile args) = false ->
  files w !! resolved (content_csv args) DEFAULT_CONTENT_CSV_PATH = Some text ->
  csv_DictReader P text = Some rows ->
  files w !! resolved (page_template args) DEFAULT_PAGE_TEMPLATE_PATH
  = Some (pre +:+ "%s" +:+ post) ->
  occurs percent pre = false ->
  occurs percent post = false ->
  (forall content_dict, content_dict ∈ rows -> skipped content_dict = false) ->
  fst (main P args w) = Ok tt
  /\ files (snd (main P args w))
     = <[DEFAULT_OUTFILE_PATH := page_of pre post (map fragment_without_embed rows)]>
         (files w).
Proof.
  intros Hfail Hout Hfile Hcsv Htemplate Hpre Hpost Hkept.
  apply (main_page P args w text pre post rows fragment_without_embed);
    try assumption.
  intros content_dict Hin w'. specialize (Hkept content_dict Hin).
  destruct (row_cases content_dict) as [Hskip|[Hweb|(s & c & u & Htype & Hurl)]].
  - congruence.
  - rewrite (website_row_run P content_dict w' Hweb).
    unfold fragment_without_embed. now rewrite Hweb.
  - rewrite (failing_fetch_fragment P s content_dict c u w' Hfail Htype Hurl).
    unfold fragment_without_embed. rewrite Htype. now destruct s.
Qed.

Lemma failing_network_page_witness :
  fst (main failing_table_platform no_arguments
         (world_with_template ("<html>" +:+ "%s" +:+ "</html>"))) = Ok tt
  /\ files (snd (main failing_table_platform no_arguments
                   (world_with_template ("<html>" +:+ "%s" +:+ "</html>"))))
     = <[DEFAULT_OUTFILE_PATH :=
           page_of "<html>" "</html>"
             (map fragment_without_embed [tweet_row; website_row])]>
         (files (world_with_template ("<html>" +:+ "%s" +:+ "</html>"))).
Proof.
  apply (failing_network_page failing_table_platform no_arguments
           (world_with_template ("<html>" +:+ "%s" +:+ "</html>"))
           "(the content table)" "<html>" "</html>" [tweet_row; website_row]);
    [ | reflexivity | vm_compute; reflexivity | reflexivity
    | vm_compute; reflexivity | reflexivity | reflexivity | ].
  - intros i url. exists not_found_response. split; [reflexivity | discriminate].
  - intros content_dict Hin.
    apply elem_of_cons in Hin as [->|Hin]; [reflexivity|].
    apply elem_of_cons in Hin as [->|Hin]; [reflexivity|].
    apply elem_of_nil in Hin. contradiction.
Defined.

Lemma row_without_request (P : platform) (content_dict : row) (w : world) :
  request_of content_dict = [] ->
  exists elem, fst (html_element_from_content P content_dict w) = Ok elem.
Proof.
  intros Hnone.
  destruct (row_cases content_dict) as [Hskip|[Hweb|(s & c & u & Htype & Hurl)]].
  - exists None. now apply skipped_row_fragment.
  - eexists. now rewrite (website_row_run P content_dict w Hweb).
  - rewrite (request_of_embedded s content_dict c u Htype Hurl) in Hnone.
    discriminate.
Qed.

Lemma row_with_request_down (P : platform) (content_dict : row) (w : world) :
  network_down P ->
  request_of content_dict <> [] ->
  fst (html_element_from_content P content_dict w) = Raise RequestException.
Proof.
  intros Hdown Hsome.
  destruct (row_cases content_dict) as [Hskip|[Hweb|(s & c & u & Htype & Hurl)]].
  - now rewrite (request_of_skipped content_dict Hskip) in Hsome.
  - now rewrite (request_of_website content_dict Hweb) in Hsome.
  - rewrite (embedded_row_run P s content_dict c u w Htype Hurl), fetcher_run.
    now rewrite Hdown.
Qed.

Lemma process_rows_down (P : platform) (total : nat) (rows : list row) :
  network_down P ->
  (exists content_dict, content_dict ∈ rows /\ request_of content_dict <> []) ->
  forall (i : nat) (acc : list (option basestring)) (w : world),
    fst (process_rows P total i rows acc w) = Raise RequestException
    /\ exists q, requests_log (snd (process_rows P total i rows acc w))
                 = requests_log w ++ [q].
Proof.
  intros Hdown. induction rows as [|content_dict rest IH];
    intros (r & Hin & Hr) i acc w.
  - apply elem_of_nil in Hin. contradiction.
  - rewrite process_rows_cons.
    pose proof (html_element_from_content_log P content_dict
                  (printed (processing_line i total) w)) as Hlog.
    destruct (request_of content_dict) as [|q qs] eqn:Hreq.
    + destruct (row_without_request P content_dict
                  (printed (processing_line i total) w) Hreq) as [elem Helem].
      destruct (html_element_from_content P content_dict _) as [[elem'|e] w1];
        simpl in Helem, Hlog; [|discriminate].
      rewrite app_nil_r in Hlog.
      apply elem_of_cons in Hin as [->|Hin]; [congruence|].
      destruct (IH (ex_intro _ r (conj Hin Hr)) (S i) (acc ++ [elem']) w1)
        as (Hraise & q & Hq).
      split; [exact Hraise|]. exists q. now rewrite Hq, Hlog.
    + assert (request_of content_dict <> []) as Hsome by congruence.
      pose proof (row_with_request_down P content_dict
                    (printed (processing_line i total) w) Hdown Hsome) as Hraise.
      assert (qs = []) as ->.
      { unfold request_of in Hreq.
        destruct (dict_get content_dict CSV_KEY_TYPE) as [ty|]; [|discriminate].
        destruct (service_of ty); [|discriminate].
        destruct (dict_get content_dict CSV_KEY_URL) as [[|c u]|];
          try discriminate.
        now injection Hreq as _ <-. }
      destruct (html_element_from_content P content_dict _) as [[elem'|e] w1];
        simpl in Hraise, Hlog; [discriminate|].
      injection Hraise as ->. split; [reflexivity|]. now exists q.
Qed.

(** X13: when the network is down, a table that holds an embedded row with
    a url is not rendered at all: the run ends in the exception of requests
    at the first such row, after that one request, and writes no file. *)
Theorem network_down_aborts (P : platform) (args : arguments) (w : world)
    (text template : string) (rows : list row) :
  network_down P ->
  files w !! resolved (content_csv args) DEFAULT_CONTENT_CSV_PATH = Some text ->
  csv_DictReader P text = Some rows ->
  files w !! resolved (page_template args) DEFAULT_PAGE_TEMPLATE_PATH
  = Some template ->
  (exists content_dict, content_dict ∈ rows /\ request_of content_dict <> []) ->
  fst (main P args w) = Raise RequestException
  /\ files (snd (main P args w)) = files w
  /\ exists q, requests_log (snd (main P args w)) = requests_log w ++ [q].
Proof.
  intros Hdown Hfile Hcsv Htemplate Hrow.
  destruct (main_paths P args w) as (w' & [Hfiles Hlog] & Hrun).
  cbv zeta in Hrun. rewrite Hrun, Hfile, Htemplate. clear Hrun.
  rewrite <- Hfiles in Hfile.
  rewrite (main_from_paths_run P _ _ _ w' text rows Hfile Hcsv).
  match goal with |- context [process_rows P ?n 0 rows [] ?v] =>
    destruct (process_rows_down P n rows Hdown Hrow 0 [] v) as (Hraise & q & Hq);
    pose proof (keeps_files_process_rows P n rows 0 [] v) as Hkeep;
    destruct (process_rows P n 0 rows [] v) as [[elems|e] w2]
  end; simpl in Hraise, Hq, Hkeep; [discriminate|].
  injection Hraise as ->. simpl. split; [reflexivity|]. split.
  - now rewrite Hkeep.
  - exists q. now rewrite Hq, Hlog.
Qed.

Lemma network_down_aborts_witness :
  fst (main down_table_platform no_arguments
         (world_with_template "<html>%s</html>")) = Raise RequestException
  /\ files (snd (main down_table_platform no_arguments
                   (world_with_template "<html>%s</html>")))
     = files (world_with_template "<html>%s</html>")
  /\ exists q, requests_log (snd (main down_table_platform no_arguments
                                    (world_with_template "<html>%s</html>")))
               = requests_log (world_with_template "<html>%s</html>") ++ [q].
Proof.
  apply (network_down_aborts down_table_platform no_arguments
           (world_with_template "<html>%s</html>") "(the content table)"
           "<html>%s</html>" [website_row; tweet_row; website_row]).
  - intros i url. reflexivity.
  - vm_compute. reflexivity.
  - reflexivity.
  - vm_compute. reflexivity.
  - exists tweet_row. split.
    + apply elem_of_cons. right. apply elem_of_cons. now left.
    + discriminate.
Defined.

(** ** Templates and fragments at their edges *)

Lemma tprepend_raise (s : string) (e : exn) : tprepend s (Raise e) = Raise e.
Proof. reflexivity. Qed.











(** ** Tables with embedded content *)

Lemma answered_row_fragment (P : platform) (html : ustring) (content_dict : row)
    (w : world) :
  embeds_answered P html ->
  skipped content_dict = false ->
  fst (html_element_from_content P content_dict w)
  = Ok (Some (fragment_with_embed html content_dict)).
Proof.
  intros Hanswered Hkept.
  destruct (row_cases content_dict) as [Hskip|[Hweb|(s & c & u & Htype & Hurl)]].
  - congruence.
  - rewrite (website_row_run P content_dict w Hweb).
    unfold fragment_with_embed. now rewrite Hweb.
  - rewrite (embedded_row_run P s content_dict c u w Htype Hurl), fetcher_run.
    destruct (Hanswered (length (requests_log w)) (query s (String c u)))
      as (r & items & -> & -> & Hjson & Hitem).
    cbn match. unfold decoded_item. rewrite Hjson. unfold getitem.
    rewrite Hitem. unfold fragment_with_embed. rewrite Htype.
    now destruct s.
Qed.

Lemma embedded_fragment_unicode (html : ustring) (content_dict : row) :
  embedded content_dict = true ->
  is_bytes (fragment_with_embed html content_dict) = false.
Proof.
  unfold embedded, fragment_with_embed.
  destruct (dict_get content_dict CSV_KEY_TYPE) as [ty|]; [|discriminate].
  intros Hin. apply bool_decide_eq_true_1 in Hin.
  apply elem_of_cons in Hin as [->|Hin]; [reflexivity|].
  apply list_elem_of_singleton in Hin as ->. reflexivity.
Qed.

Lemma all_bytes_with_unicode (items : list basestring) (item : basestring) :
  item ∈ items -> is_bytes item = false -> all_bytes items = None.
Proof.
  induction items as [|[s|u] rest IH]; intros Hin Hkind.
  - apply elem_of_nil in Hin. contradiction.
  - apply elem_of_cons in Hin as [->|Hin]; [discriminate|].
    cbn [all_bytes]. now rewrite (IH Hin Hkind).
  - reflexivity.
Qed.

Lemma embedded_table_fragments (html : ustring) (rows : list row)
    (content_dict : row) :
  content_dict ∈ rows ->
  embedded content_dict = true ->
  all_bytes (map (fragment_with_embed html) rows) = None.
Proof.
  intros Hin Hembedded.
  apply (all_bytes_with_unicode _ (fragment_with_embed html content_dict)).
  - apply list_elem_of_fmap. now exists content_dict.
  - now apply embedded_fragment_unicode.
Qed.

(** The run on a table with embedded content whose fetches all succeed. *)
Lemma embedded_table_run (P : platform) (args : arguments) (w : world)
    (text pre post : string) (rows : list row) (html : ustring)
    (content_dict : row) :
  embeds_answered P html ->
  truthy (outfile args) = false ->
  files w !! resolved (content_csv args) DEFAULT_CONTENT_CSV_PATH = Some text ->
  csv_DictReader P text = Some rows ->
  files w !! resolved (page_template args) DEFAULT_PAGE_TEMPLATE_PATH
  = Some (pre +:+ "%s" +:+ post) ->
  occurs percent pre = false ->
  occurs percent post = false ->
  (forall r, r ∈ rows -> skipped r = false) ->
  content_dict ∈ rows ->
  embedded content_dict = true ->
  if ascii_fragments (map (fragment_with_embed html) rows)
     && (is_ascii pre && is_ascii post)
  then match encode (upage_of pre post (map (fragment_with_embed html) rows)) with
       | Ok page =>
           fst (main P args w) = Ok tt
           /\ files (snd (main P args w))
              = <[DEFAULT_OUTFILE_PATH := page]> (files w)
       | Raise _ =>
           fst (main P args w) = Raise UnicodeEncodeError
           /\ files (snd (main P args w))
              = <[DEFAULT_OUTFILE_PATH := EmptyString]> (files w)
       end
  else fst (main P args w) = Raise UnicodeDecodeError
       /\ files (snd (main P args w)) = files w.
Proof.
  intros Hanswered Hout Hfile Hcsv Htemplate Hpre Hpost Hkept Hin Hembedded.
  destruct (main_unicode_page_run P args w text pre post rows
              (fragment_with_embed html) Hout Hfile Hcsv Htemplate Hpre Hpost)
    as (w2 & Hfiles & ->).
  - intros r Hr w'. apply answered_row_fragment; auto.
  - exact (embedded_table_fragments html rows content_dict Hin Hembedded).
  - destruct (ascii_fragments _ && _); [|now split].
    destruct (encode _); (split; [reflexivity|]); simpl; now rewrite Hfiles.
Qed.

(** X16: a table with no skipped row and at least one row of embedded
    content, whose fetches are all answered with the embed code html, a
    template of one placeholder and no output flag.  When a byte over 127
    stands in the template or in a website row, the run ends in
    UnicodeDecodeError and writes no file.  Otherwise the page is unicode
    text: when it holds ASCII only the run returns and the output file holds
    it; when it does not, the run ends in UnicodeEncodeError and leaves the
    output file empty. *)
Theorem embedded_table_page (P : platform) (args : arguments) (w : world)
    (text pre post : string) (rows : list row) (html : ustring)
    (content_dict : row) :
  embeds_answered P html ->
  truthy (outfile args) = false ->
  files w !! resolved (content_csv args) DEFAULT_CONTENT_CSV_PATH = Some text ->
  csv_DictReader P text = Some rows ->
  files w !! resolved (page_template args) DEFAULT_PAGE_TEMPLATE_PATH
  = Some (pre +:+ "%s" +:+ post) ->
  occurs percent pre = false ->
  occurs percent post = false ->
  (forall r, r ∈ rows -> skipped r = false) ->
  content_dict ∈ rows ->
  embedded content_dict = true ->
  if ascii_fragments (map (fragment_with_embed html) rows)
     && (is_ascii pre && is_ascii post)
  then match encode (upage_of pre post (map (fragment_with_embed html) rows)) with
       | Ok page =>
           fst (main P args w) = Ok tt
           /\ files (snd (main P args w))
              = <[DEFAULT_OUTFILE_PATH := page]> (files w)
       | Raise _ =>
           fst (main P args w) = Raise UnicodeEncodeError
           /\ files (snd (main P args w))
              = <[DEFAULT_OUTFILE_PATH := EmptyString]> (files w)
       end
  else fst (main P args w) = Raise UnicodeDecodeError
       /\ files (snd (main P args w)) = files w.
Proof. apply embedded_table_run. Qed.

Lemma in_singleton_row (P : row -> Prop) (a : row) :
  P a -> forall r, r ∈ [a] -> P r.
Proof. intros Ha r Hr. apply list_elem_of_singleton in Hr as ->. exact Ha. Qed.

Lemma in_pair_row (P : row -> Prop) (a b : row) :
  P a -> P b -> forall r, r ∈ [a; b] -> P r.
Proof.
  intros Ha Hb r Hr. apply elem_of_cons in Hr as [->|Hr]; [exact Ha|].
  apply list_elem_of_singleton in Hr as ->. exact Hb.
Qed.

Lemma answered_sample (r : response) (items : list (ustring * decoded))
    (html : ustring) (rows : list row) :
  status_code r = 200 ->
  assoc (to_unicode "html") items = Some (DUnicode html) ->
  embeds_answered (sample_platform (Some r) (Some (DDict items)) rows) html.
Proof. intros Hstatus Hitem i url. now exists r, items. Qed.

Lemma embedded_table_page_witness :
  (exists page,
      encode (upage_of "<html>" "</html>"
                (map (fragment_with_embed
                        (to_unicode "<blockquote>a tweet</blockquote>"))
                   [tweet_row; website_row])) = Ok page
      /\ fst (main two_row_platform no_arguments
                (world_with_template ("<html>" +:+ "%s" +:+ "</html>"))) = Ok tt
      /\ files (snd (main two_row_platform no_arguments
                       (world_with_template ("<html>" +:+ "%s" +:+ "</html>"))))
         = <[DEFAULT_OUTFILE_PATH := page]>
             (files (world_with_template ("<html>" +:+ "%s" +:+ "</html>"))))
  /\ (fst (main accented_platform no_arguments
             (world_with_template ("<html>" +:+ "%s" +:+ "</html>")))
      = Raise UnicodeEncodeError
      /\ files (snd (main accented_platform no_arguments
                       (world_with_template ("<html>" +:+ "%s" +:+ "</html>"))))
         = <[DEFAULT_OUTFILE_PATH := EmptyString]>
             (files (world_with_template ("<html>" +:+ "%s" +:+ "</html>"))))
  /\ (fst (main accented_quote_platform no_arguments
             (world_with_template ("<html>" +:+ "%s" +:+ "</html>")))
      = Raise UnicodeDecodeError
      /\ files (snd (main accented_quote_platform no_arguments
                       (world_with_template ("<html>" +:+ "%s" +:+ "</html>"))))
         = files (world_with_template ("<html>" +:+ "%s" +:+ "</html>"))).
Proof.
  split; [|split].
  - pose proof (embedded_table_page two_row_platform no_arguments
                  (world_with_template ("<html>" +:+ "%s" +:+ "</html>"))
                  "(the content table)" "<html>" "</html>"
                  [tweet_row; website_row]
                  (to_unicode "<blockquote>a tweet</blockquote>") tweet_row
                  (answered_sample ok_response
                     [(to_unicode "url",
                        DUnicode (to_unicode "https://twitter.com/a/status/1"));
                       (to_unicode "html",
                        DUnicode (to_unicode "<blockquote>a tweet</blockquote>"))]
                     (to_unicode "<blockquote>a tweet</blockquote>")
                     [tweet_row; website_row] eq_refl eq_refl)
                  eq_refl ltac:(vm_compute; reflexivity) eq_refl
                  ltac:(vm_compute; reflexivity) eq_refl eq_refl
                  (in_pair_row _ _ _ eq_refl eq_refl)
                  ltac:(apply elem_of_cons; now left) eq_refl) as Hrun.
    change (ascii_fragments _ && _) with true in Hrun. cbv iota in Hrun.
    destruct (encode _) as [page|e] eqn:Hpage in Hrun.
    + exists page. split; [exact Hpage | exact Hrun].
    + destruct Hrun as [Hrun _]. vm_compute in Hrun. discriminate Hrun.
  - exact (embedded_table_page accented_platform no_arguments
             (world_with_template ("<html>" +:+ "%s" +:+ "</html>"))
             "(the content table)" "<html>" "</html>" [tweet_row]
             accented_embed tweet_row
             (answered_sample ok_response
                [(to_unicode "html", DUnicode accented_embed)]
                accented_embed [tweet_row]
                eq_refl eq_refl)
             eq_refl ltac:(vm_compute; reflexivity) eq_refl
             ltac:(vm_compute; reflexivity) eq_refl eq_refl
             (in_singleton_row _ _ eq_refl)
             ltac:(apply elem_of_cons; now left) eq_refl).
  - exact (embedded_table_page accented_quote_platform no_arguments
             (world_with_template ("<html>" +:+ "%s" +:+ "</html>"))
             "(the content table)" "<html>" "</html>" [accented_row; tweet_row]
             (to_unicode "<blockquote>a tweet</blockquote>") tweet_row
             (answered_sample ok_response
                [(to_unicode "url",
                        DUnicode (to_unicode "https://twitter.com/a/status/1"));
                       (to_unicode "html",
                        DUnicode (to_unicode "<blockquote>a tweet</blockquote>"))]
                (to_unicode "<blockquote>a tweet</blockquote>")
                [accented_row; tweet_row] eq_refl eq_refl)
             eq_refl ltac:(vm_compute; reflexivity) eq_refl
             ltac:(vm_compute; reflexivity) eq_refl eq_refl
             (in_pair_row _ _ _ eq_refl eq_refl)
             ltac:(apply elem_of_cons; right; apply elem_of_cons; now left)
             eq_refl).
Defined.

Lemma uascii_app (a b : ustring) : uascii (a ++ b) = uascii a && uascii b.
Proof. apply forallb_app. Qed.

Lemma uascii_to_unicode (s : string) : uascii (to_unicode s) = is_ascii s.
Proof.
  induction s as [|c s IH]; [reflexivity|].
  cbn [to_unicode is_ascii]. change (uascii (?n :: ?u))
    with ((n <? 128)%N && uascii u). now rewrite IH.
Qed.

Lemma uascii_uescape_percent (u : ustring) :
  uascii (uescape_percent u) = uascii u.
Proof.
  induction u as [|n u IH]; [reflexivity|]. cbn [uescape_percent].
  destruct (N.eqb_spec n 37) as [->|_].
  - change (uascii (37%N :: 37%N :: ?v)) with (uascii v).
    change (uascii (37%N :: ?v)) with (uascii v). exact IH.
  - change (uascii (n :: ?v)) with ((n <? 128)%N && uascii v). now rewrite IH.
Qed.

Lemma uascii_ujoin (sep : ustring) (parts : list ustring) :
  uascii sep = true ->
  uascii (ujoin sep parts) = forallb uascii parts.
Proof.
  intros Hsep. induction parts as [|p [|q rest] IH]; [reflexivity| |].
  - cbn [ujoin forallb]. now rewrite andb_true_r.
  - change (ujoin sep (p :: q :: rest)) with (p ++ sep ++ ujoin sep (q :: rest)).
    rewrite !uascii_app, Hsep, IH. reflexivity.
Qed.

Lemma uascii_ucontainer (class : string) (body : ustring) :
  is_ascii class = true ->
  uascii (ucontainer class body) = uascii body.
Proof.
  intros Hclass. unfold ucontainer.
  rewrite !uascii_app, !uascii_to_unicode, !is_ascii_append, Hclass.
  now destruct (uascii body).
Qed.

Lemma encode_not_ascii (u : ustring) :
  uascii u = false -> encode u = Raise UnicodeEncodeError.
Proof.
  induction u as [|n u IH]; [discriminate|].
  change (uascii (n :: u)) with ((n <? 128)%N && uascii u). cbn [encode].
  destruct (n <? 128)%N; [|reflexivity]. intros Hu. now rewrite (IH Hu).
Qed.


Lemma content_type_ascii (content_type : string) :
  content_type ∈ CONTENT_TYPES -> is_ascii content_type = true.
Proof.
  intros Hin. apply content_type_cases in Hin as [[s ->]| ->];
    [now destruct s | reflexivity].
Qed.

Lemma uascii_fragment (html : ustring) (r : row) :
  skipped r = false ->
  uascii (uescape_percent (to_utext (fragment_with_embed html r)))
  = ascii_fragment (fragment_with_embed html r)
    && (negb (embedded r) || uascii html).
Proof.
  intros Hr. rewrite uascii_uescape_percent.
  destruct (row_cases r) as [Hskip|[Hweb|(s & c & u & Htype & Hurl)]];
    [congruence | |].
  - assert (fragment_with_embed html r = Bytes (website_fragment r)) as ->
      by (unfold fragment_with_embed; now rewrite Hweb).
    assert (embedded r = false) as -> by (unfold embedded; now rewrite Hweb).
    cbn [to_utext ascii_fragment negb orb].
    now rewrite uascii_to_unicode, andb_true_r.
  - assert (fragment_with_embed html r
            = Unicode (ucontainer (content_type_of s) html)) as ->
      by (unfold fragment_with_embed; rewrite Htype; now destruct s).
    assert (embedded r = true) as ->
      by (unfold embedded; rewrite Htype; now destruct s).
    cbn [to_utext ascii_fragment negb orb andb].
    apply uascii_ucontainer. now destruct s.
Qed.

(** Whether the fragments of a table hold ASCII only, when no row of it is
    skipped. *)
Lemma uascii_fragments (html : ustring) (rows : list row) :
  (forall r, r ∈ rows -> skipped r = false) ->
  forallb uascii
    (map uescape_percent (map to_utext (map (fragment_with_embed html) rows)))
  = ascii_fragments (map (fragment_with_embed html) rows)
    && (forallb (fun r => negb (embedded r)) rows || uascii html).
Proof.
  induction rows as [|r rest IH]; intros Hkept; [reflexivity|].
  unfold ascii_fragments in *. cbn [map forallb].
  rewrite IH by (intros r' Hr'; apply Hkept; apply elem_of_cons; now right).
  rewrite uascii_fragment by (apply Hkept; apply elem_of_cons; now left).
  destruct (ascii_fragment (fragment_with_embed html r)),
    (forallb ascii_fragment (map (fragment_with_embed html) rest)),
    (embedded r), (forallb (fun r0 => negb (embedded r0)) rest), (uascii html);
    reflexivity.
Qed.

Lemma uascii_upage (html : ustring) (pre post : string) (rows : list row) :
  (forall r, r ∈ rows -> skipped r = false) ->
  uascii (upage_of pre post (map (fragment_with_embed html) rows))
  = is_ascii pre
    && (ascii_fragments (map (fragment_with_embed html) rows)
        && (forallb (fun r => negb (embedded r)) rows || uascii html)
        && is_ascii post).
Proof.
  intros Hkept. unfold upage_of.
  rewrite !uascii_app, !uascii_to_unicode, uascii_ujoin by reflexivity.
  now rewrite (uascii_fragments html rows Hkept).
Qed.

Lemma embedded_row_in_table (rows : list row) (content_dict : row) :
  content_dict ∈ rows ->
  embedded content_dict = true ->
  forallb (fun r => negb (embedded r)) rows = false.
Proof.
  intros Hin Hembedded. apply not_true_is_false. intros Hall.
  rewrite forallb_forall in Hall.
  specialize (Hall content_dict). rewrite Hembedded in Hall.
  discriminate Hall. now apply list_elem_of_In.
Qed.

(** X17: an embed code with a character outside ASCII empties the page.
    For a table with no skipped row and a row of embedded content, whose
    fetches are all answered with such an embed code, when the template and
    the website rows hold ASCII only: the run ends in UnicodeEncodeError and
    the output file, opened before, is left empty. *)
Theorem non_ascii_embed_empties_page (P : platform) (args : arguments)
    (w : world) (text pre post : string) (rows : list row) (html : ustring)
    (content_dict : row) :
  embeds_answered P html ->
  truthy (outfile args) = false ->
  files w !! resolved (content_csv args) DEFAULT_CONTENT_CSV_PATH = Some text ->
  csv_DictReader P text = Some rows ->
  files w !! resolved (page_template args) DEFAULT_PAGE_TEMPLATE_PATH
  = Some (pre +:+ "%s" +:+ post) ->
  occurs percent pre = false ->
  occurs percent post = false ->
  (forall r, r ∈ rows -> skipped r = false) ->
  content_dict ∈ rows ->
  embedded content_dict = true ->
  is_ascii pre = true ->
  is_ascii post = true ->
  ascii_fragments (map (fragment_with_embed html) rows) = true ->
  uascii html = false ->
  fst (main P args w) = Raise UnicodeEncodeError
  /\ files (snd (main P args w))
     = <[DEFAULT_OUTFILE_PATH := EmptyString]> (files w).
Proof.
  intros Hanswered Hout Hfile Hcsv Htemplate Hpre Hpost Hkept Hin Hembedded
    Hapre Hapost Hfrags Hhtml.
  pose proof (embedded_table_run P args w text pre post rows html content_dict
                Hanswered Hout Hfile Hcsv Htemplate Hpre Hpost Hkept Hin
                Hembedded) as Hrun.
  rewrite Hfrags, Hapre, Hapost in Hrun. cbn [andb] in Hrun.
  rewrite encode_not_ascii in Hrun; [exact Hrun|].
  rewrite (uascii_upage html pre post rows Hkept), Hhtml.
  rewrite (embedded_row_in_table rows content_dict Hin Hembedded).
  cbn [orb]. now rewrite andb_false_r, andb_false_l, andb_false_r.
Qed.

Lemma non_ascii_embed_empties_page_witness :
  fst (main accented_platform no_arguments
         (world_with_template ("<html>" +:+ "%s" +:+ "</html>")))
  = Raise UnicodeEncodeError
  /\ files (snd (main accented_platform no_arguments
                   (world_with_template ("<html>" +:+ "%s" +:+ "</html>"))))
     = <[DEFAULT_OUTFILE_PATH := EmptyString]>
         (files (world_with_template ("<html>" +:+ "%s" +:+ "</html>"))).
Proof.
  exact (non_ascii_embed_empties_page accented_platform no_arguments
           (world_with_template ("<html>" +:+ "%s" +:+ "</html>"))
           "(the content table)" "<html>" "</html>" [tweet_row]
           accented_embed tweet_row
           (answered_sample ok_response
              [(to_unicode "html", DUnicode accented_embed)]
              accented_embed [tweet_row] eq_refl eq_refl)
           eq_refl ltac:(vm_compute; reflexivity) eq_refl
           ltac:(vm_compute; reflexivity) eq_refl eq_refl
           (in_singleton_row _ _ eq_refl)
           ltac:(apply elem_of_cons; now left) eq_refl
           eq_refl eq_refl eq_refl eq_refl).
Defined.


